(** * data_analysis_v2: the HTTP handlers of [app/main.py]

    A shallow embedding of the request handlers of [src/app/main.py]
    (upload, analyze, visualize, generate-report, auto-analyze) and the
    properties the specification states about them.

    Conventions of the embedding.
    - A Python [str] is a Rocq [string]; its characters stand for the code
      points below 256, which is enough for every literal the handlers
      compare against.
    - The process-wide dictionary [data_store] is a [gmap string entry].
    - The working directory is a [gmap string blob]: a path is mapped to
      what the handler wrote there (raw upload, image, dashboard, PDF).
    - [uuid.uuid4()] draws from a supply [uuid : nat -> string] indexed by
      a counter kept in the state.
    - Everything outside the process (dataframe parsing, the completion
      service, the execution of generated code, the plotting back ends) is
      an oracle of the record [World]; an oracle answers either with a value
      or with the text of the exception it raised.
    - A handler returns [Return v], raises [Raise e] with [e] of class
      [Exception], or is left without an answer, [Aborted]: by a
      [BaseException] that no [except Exception] clause catches, or
      because generated code never comes back. FastAPI turns
      [Raise (HTTPException s d)] into a response of status [s].
    - The local variables [data] and [df] of a handler point into
      [data_store]: the embedding reads them through [file_id], so that
      what generated code does to the dataframe it is handed is done to
      the stored one. *)

From Stdlib Require Import String Ascii ZArith List Bool Lia.
From stdpp Require Import base gmap strings list pretty.

Set Warnings "-register-all".
Local Open Scope string_scope.
Local Open Scope Z_scope.

(** ** Python string primitives used by the handlers *)

Module Py.

(** [s.split(sep)] for a one-character separator. *)
Fixpoint split (sep : ascii) (s : string) : list string :=
  match s with
  | EmptyString => [EmptyString]
  | String c s' =>
      if Ascii.eqb sep c then EmptyString :: split sep s'
      else match split sep s' with
           | seg :: rest => String c seg :: rest
           | [] => [String c EmptyString]
           end
  end.

(** [l[-1]] on a list of strings (the list [split] returns is never
    empty, so the default is not reached from the handlers). *)
Definition last_item (l : list string) : string := List.last l EmptyString.

Definition lower_char (c : ascii) : ascii :=
  let n := nat_of_ascii c in
  if ((65 <=? n) && (n <=? 90))%nat then ascii_of_nat (n + 32)
  else if ((192 <=? n) && (n <=? 222) && negb (n =? 215))%nat
       then ascii_of_nat (n + 32)
  else c.

(** [s.lower()]. *)
Fixpoint lower (s : string) : string :=
  match s with
  | EmptyString => EmptyString
  | String c s' => String (lower_char c) (lower s')
  end.

(** [c.isspace()] on the code points below 256. *)
Definition isspace (c : ascii) : bool :=
  let n := nat_of_ascii c in
  (((9 <=? n) && (n <=? 13)) || ((28 <=? n) && (n <=? 32))
   || (n =? 133) || (n =? 160))%nat.

Fixpoint lstrip (s : string) : string :=
  match s with
  | EmptyString => EmptyString
  | String c s' => if isspace c then lstrip s' else s
  end.

Definition rev (s : string) : string :=
  string_of_list_ascii (List.rev (list_ascii_of_string s)).

Definition rstrip (s : string) : string := rev (lstrip (rev s)).

(** [s.strip()]. *)
Definition strip (s : string) : string := rstrip (lstrip s).

(** [len(s)]. *)
Definition len (s : string) : nat := String.length s.

(** [s.startswith(p)]. *)
Fixpoint startswith (p s : string) {struct p} : bool :=
  match p, s with
  | EmptyString, _ => true
  | String a p', String b s' => Ascii.eqb a b && startswith p' s'
  | String _ _, EmptyString => false
  end.

(** [sub in s] on strings. *)
Fixpoint contains (sub s : string) : bool :=
  startswith sub s ||
  match s with
  | EmptyString => false
  | String _ s' => contains sub s'
  end.

(** [s.replace(c, by)] for a one-character pattern. *)
Fixpoint replace (c : ascii) (by_ : string) (s : string) : string :=
  match s with
  | EmptyString => EmptyString
  | String d s' =>
      if Ascii.eqb d c then by_ +:+ replace c by_ s'
      else String d (replace c by_ s')
  end.

(** [x in l] for a list of strings. *)
Definition elem (x : string) (l : list string) : bool :=
  existsb (String.eqb x) l.

(** Truthiness of a string: [bool(s)]. *)
Definition truthy (s : string) : bool :=
  match s with EmptyString => false | _ => true end.

(** [s.endswith(p)]. *)
Definition endswith (p s : string) : bool := startswith (rev p) (rev s).

(** [s[1:]]. *)
Definition tail (s : string) : string :=
  match s with EmptyString => EmptyString | String _ s' => s' end.

Definition newline : ascii := ascii_of_nat 10.

End Py.

(** ** Data model *)

(** The column types [select_dtypes] distinguishes in the handlers. *)
Inductive dtype := DNumber | DObject | DCategory | DOther.

Definition dtype_eqb (a b : dtype) : bool :=
  match a, b with
  | DNumber, DNumber | DObject, DObject
  | DCategory, DCategory | DOther, DOther => true
  | _, _ => false
  end.

(** A dataframe, as far as the handlers look into it: its ordered, typed
    columns and its number of rows. *)
Record DataFrame := {
  df_cols : list (string * dtype);
  df_rows : nat
}.

(** [df.columns] *)
Definition columns (df : DataFrame) : list string := map fst (df_cols df).

(** [df.select_dtypes(include=incl).columns] *)
Definition select_dtypes (incl : list dtype) (df : DataFrame) : list string :=
  map fst (List.filter (fun c => existsb (dtype_eqb (snd c)) incl) (df_cols df)).

Definition numeric_cols (df : DataFrame) : list string :=
  select_dtypes [DNumber] df.

(** One value of [data_store]: the dictionary built by [upload_file], plus
    the ["dashboard"] key [auto_analyze_data] adds later. *)
Record entry := {
  e_filename : string;
  e_path : string;
  e_columns : list string;
  e_df : DataFrame;
  e_dashboard : option string
}.

(** What [json.loads] can return. *)
Inductive json :=
| JNull
| JBool (b : bool)
| JNum (n : Z)
| JStr (s : string)
| JArr (l : list json)
| JObj (kv : list (string * json)).

(** Exceptions, by the classes the handlers tell apart. *)
Inductive exn :=
| HTTPException (status_code : Z) (detail : string)
| HTTPStatusError (status_code : Z) (text : string)
| Exception (msg : string).

(** [str(e)]. Starlette prints an [HTTPException] as ["<status>: <detail>"].
    The handlers never print a status error, they read its response; the
    embedding prints its status. *)
Definition str_exn (e : exn) : string :=
  match e with
  | HTTPException s d => pretty s +:+ ": " +:+ d
  | HTTPStatusError s t => "HTTP status " +:+ pretty s
  | Exception m => m
  end.

(** How a call ends. [Aborted] stands for what [except Exception] does not
    catch ([SystemExit], [KeyboardInterrupt]) and for a call that never
    comes back. *)
Inductive result (A : Type) :=
| Return (a : A)
| Raise (e : exn)
| Aborted.
Arguments Return {A} a.
Arguments Raise {A} e.
Arguments Aborted {A}.

(** The status FastAPI answers with; [0] when no answer is sent. *)
Definition status_of {A} (r : result A) : Z :=
  match r with
  | Return _ => 200
  | Raise (HTTPException s _) => s
  | Raise _ => 500
  | Aborted => 0
  end.

Definition detail_of {A} (r : result A) : string :=
  match r with
  | Raise (HTTPException _ d) => d
  | _ => EmptyString
  end.

Definition is_client_error (s : Z) : bool := (400 <=? s) && (s <? 500).
Definition is_server_error (s : Z) : bool := (500 <=? s) && (s <? 600).

(** A status in the 2xx range, the test of [raise_for_status]. *)
Definition is_success (status : Z) : bool :=
  (200 <=? status) && (status <? 300).

(** ** Python operations on parsed JSON values *)

Definition type_name (j : json) : string :=
  match j with
  | JNull => "NoneType"
  | JBool _ => "bool"
  | JNum _ => "int"
  | JStr _ => "str"
  | JArr _ => "list"
  | JObj _ => "dict"
  end.

(** [bool(j)] *)
Definition truthy (j : json) : bool :=
  match j with
  | JNull => false
  | JBool b => b
  | JNum n => negb (n =? 0)
  | JStr s => Py.truthy s
  | JArr l => match l with [] => false | _ => true end
  | JObj kv => match kv with [] => false | _ => true end
  end.

Fixpoint assoc {A} (k : string) (kv : list (string * A)) : option A :=
  match kv with
  | [] => None
  | (k', v) :: rest => if String.eqb k' k then Some v else assoc k rest
  end.

(** [d[k] = v] on a dictionary kept as an association list. *)
Fixpoint assoc_set {A} (k : string) (v : A) (kv : list (string * A))
  : list (string * A) :=
  match kv with
  | [] => [(k, v)]
  | (k', v') :: rest =>
      if String.eqb k' k then (k, v) :: rest
      else (k', v') :: assoc_set k v rest
  end.

Definition is_JStr (k : string) (j : json) : bool :=
  match j with JStr s => String.eqb s k | _ => false end.

(** [k in j] for a string [k]. *)
Definition py_in (k : string) (j : json) : result bool :=
  match j with
  | JObj kv => Return (match assoc k kv with Some _ => true | None => false end)
  | JArr l => Return (existsb (is_JStr k) l)
  | JStr s => Return (Py.contains k s)
  | _ => Raise (Exception
           ("argument of type '" +:+ type_name j +:+ "' is not iterable"))
  end.

(** [j[k]] for a string [k]. *)
Definition py_getitem (j : json) (k : string) : result json :=
  match j with
  | JObj kv =>
      match assoc k kv with
      | Some v => Return v
      | None => Raise (Exception ("'" +:+ k +:+ "'"))
      end
  | JArr _ =>
      Raise (Exception "list indices must be integers or slices, not str")
  | JStr _ => Raise (Exception "string indices must be integers, not 'str'")
  | _ => Raise (Exception
           ("'" +:+ type_name j +:+ "' object is not subscriptable"))
  end.

(** [j[k] = v] for a string [k]. *)
Definition py_setitem (j : json) (k : string) (v : json) : result json :=
  match j with
  | JObj kv => Return (JObj (assoc_set k v kv))
  | JArr _ =>
      Raise (Exception "list indices must be integers or slices, not str")
  | _ => Raise (Exception
           ("'" +:+ type_name j
            +:+ "' object does not support item assignment"))
  end.

(** [j.get(k, default)]. *)
Definition py_get (j : json) (k : string) (default : json) : result json :=
  match j with
  | JObj kv =>
      Return (match assoc k kv with Some v => v | None => default end)
  | _ => Raise (Exception
           ("'" +:+ type_name j +:+ "' object has no attribute 'get'"))
  end.

(** ** The preview rows of an upload *)

(** A cell of [df.head(5).to_dict(orient="records")]: a value, or the
    float [nan] pandas puts where the file has no value. *)
Inductive cell :=
| Value (v : json)
| NaN.

Definition record := list (string * cell).

(** Whether the framework can render the rows as JSON: its encoder runs
    [json.dumps(..., allow_nan=False)], which raises [ValueError] on a
    [nan]. *)
Definition json_compliant (rows : list record) : bool :=
  forallb (forallb (fun kc : string * cell =>
                      match snd kc with Value _ => true | NaN => false end))
          rows.

(** ** Artifacts written to disk *)

(** The chart types of the declarative endpoint. *)
Inductive chart := Bar | Line | Scatter | Histogram | Box.

(** What an image file shows, by the code path that drew it. *)
Inductive image :=
| ImgChart (kind : chart) (x : string) (y color : option string)
| ImgMatplotlib (code : string)
| ImgPlotly (code : string)
| ImgHist (col : string)
| ImgTopValues (col : string)
| ImgErrorText (msg : string)
| ImgOverview (df : DataFrame)
| ImgHeatmap.

(** The calls made on the [FPDF] object, in order. *)
Inductive pdf_op :=
| PdfTitle (text : string)
| PdfHeading (text : string)
| PdfParagraph (text : string)
| PdfCaption (text : string)
| PdfImage (path : string)
| PdfNote (text : string).

(** The dashboard document: the fixed template pieces, named by the
    section they open, and the interpolated texts between them. *)
Inductive piece :=
| Header (filename : string) (rows cols : nat)
| Section_ (heading : string) (body : string)
| Tile (title path description : string)
| NoVisualizations
| PreprocessingResults (original preprocessed : string)
| Change (text : string)
| NoChanges
| PreprocessingWarning (msg : string).

Inductive blob :=
| Upload (content : string)
| Image (img : image)
| Dashboard (doc : list piece)
| Report (ops : list pdf_op).

(** ** The world outside the process *)

Inductive upstream :=
| NetworkFailure (msg : string)
| Response (status : Z) (body : string).

(** How [exec(code, namespace)] ended: with an exception of class
    [Exception]; normally, and then whether the namespace still binds
    [plt] and now binds [fig]; or with a [BaseException] outside
    [Exception], or not at all. *)
Inductive exec_outcome :=
| ExecRaised (msg : string)
| ExecDone (ns_plt ns_fig : bool)
| ExecAborted.

Record World := {
  (** the [n]-th identifier [uuid.uuid4()] returns *)
  uuid : nat -> string;
  (** [pd.read_csv] and [pd.read_excel] on the stored bytes *)
  read_csv : string -> string + DataFrame;
  read_excel : string -> string + DataFrame;
  (** the prompt texts built from the data summary *)
  analyze_prompt : string -> DataFrame -> string;
  auto_prompt : DataFrame -> string;
  (** [client.post] to the completion service *)
  post : string -> upstream;
  (** [response.json()], the path to the message content, [json.loads] *)
  decode : string -> string + json;
  (** [df.head(5).to_dict(orient="records")] *)
  head : DataFrame -> list record;
  (** [exec(code, namespace)] on a code string, with the dataframe the
      namespace binds to [df]: how it ended, and the dataframe as the code
      left it *)
  exec : string -> DataFrame -> exec_outcome * DataFrame;
  (** what [Path(p).exists()] finds besides the files the handlers wrote:
      directories, the empty path (the working directory), other
      spellings of a path *)
  outside : string -> bool;
  (** the plotting and saving calls that draw an image: the exception
      text if they raise *)
  plot_error : image -> option string;
  (** [pdf.image(path)]: the exception text if it raises *)
  embed_error : string -> option string;
  (** opening a dashboard or writing a PDF at a path: the exception text
      if it raises (for a PDF also when its text does not fit the Latin-1
      fonts of the library) *)
  write_error : string -> option string;
  (** [json.dumps(j, indent=2)] and [str(j)] *)
  dumps : json -> string;
  str : json -> string
}.

(** ** Process state and the handler monad *)

Record state := {
  data_store : gmap string entry;
  fs : gmap string blob;
  uuid_ctr : nat
}.

Definition M (A : Type) : Type := state -> result A * state.

Definition ret {A} (a : A) : M A := fun s => (Return a, s).
Definition raise {A} (e : exn) : M A := fun s => (Raise e, s).
Definition abort {A} : M A := fun s => (Aborted, s).
Definition lift {A} (r : result A) : M A := fun s => (r, s).

Definition bind {A B} (m : M A) (f : A -> M B) : M B :=
  fun s =>
    match m s with
    | (Return a, s') => f a s'
    | (Raise e, s') => (Raise e, s')
    | (Aborted, s') => (Aborted, s')
    end.

(** [try: m except Exception as e: h e]. What [m] did to the state before
    raising stays done; an [Aborted] passes through. *)
Definition try_except {A} (m : M A) (h : exn -> M A) : M A :=
  fun s =>
    match m s with
    | (Return a, s') => (Return a, s')
    | (Raise e, s') => h e s'
    | (Aborted, s') => (Aborted, s')
    end.

Notation "x <- m ;; k" := (bind m (fun x => k))
  (at level 100, m at next level, right associativity).
Notation "m ;;; k" := (bind m (fun _ => k))
  (at level 100, right associativity).

(** The outcome of a [try] as a value: the exception caught, or the
    result. *)
Definition attempt {A} (m : M A) : M (exn + A) :=
  try_except (a <- m ;; ret (inr a)) (fun e => ret (inl e)).

Definition get_store : M (gmap string entry) :=
  fun s => (Return (data_store s), s).

Definition set_entry (k : string) (e : entry) : M unit :=
  fun s => (Return tt,
            {| data_store := <[k := e]> (data_store s);
               fs := fs s; uuid_ctr := uuid_ctr s |}).

Definition write_file (path : string) (b : blob) : M unit :=
  fun s => (Return tt,
            {| data_store := data_store s;
               fs := <[path := b]> (fs s); uuid_ctr := uuid_ctr s |}).

(** [f.write] on a dashboard being written: the pieces go after those
    already in the file. *)
Definition append_doc (path : string) (ps : list piece) : M unit :=
  fun s =>
    let old := match fs s !! path with
               | Some (Dashboard d) => d
               | _ => []
               end in
    (Return tt,
     {| data_store := data_store s;
        fs := <[path := Dashboard (old ++ ps)]> (fs s);
        uuid_ctr := uuid_ctr s |}).

(** An entry with another dashboard, and with its dataframe changed in
    place. *)
Definition with_dashboard (e : entry) (url : string) : entry :=
  {| e_filename := e_filename e; e_path := e_path e;
     e_columns := e_columns e; e_df := e_df e;
     e_dashboard := Some url |}.

Definition with_df (e : entry) (df : DataFrame) : entry :=
  {| e_filename := e_filename e; e_path := e_path e;
     e_columns := e_columns e; e_df := df;
     e_dashboard := e_dashboard e |}.

(** [data_store[file_id]["dashboard"] = url] *)
Definition set_dashboard (file_id url : string) : M unit :=
  fun s =>
    match data_store s !! file_id with
    | Some e =>
        (Return tt,
         {| data_store := <[file_id := with_dashboard e url]> (data_store s);
            fs := fs s; uuid_ctr := uuid_ctr s |})
    | None => (Raise (Exception ("'" +:+ file_id +:+ "'")), s)
    end.

(** What the handler's local [data] points to: the entry of [file_id] as
    it is now. The handlers test [file_id in data_store] first and delete
    nothing, so the [KeyError] is not reached from them. *)
Definition stored_entry (file_id : string) : M entry :=
  fun s =>
    match data_store s !! file_id with
    | Some e => (Return e, s)
    | None => (Raise (Exception ("'" +:+ file_id +:+ "'")), s)
    end.

(** What the handler's local [df] points to. *)
Definition stored_df (file_id : string) : M DataFrame :=
  e <- stored_entry file_id ;;
  ret (e_df e).

(** The dataframe object of [file_id] after it was changed in place. *)
Definition set_df (file_id : string) (df : DataFrame) : M unit :=
  fun s =>
    match data_store s !! file_id with
    | Some e =>
        (Return tt,
         {| data_store := <[file_id := with_df e df]> (data_store s);
            fs := fs s; uuid_ctr := uuid_ctr s |})
    | None => (Return tt, s)
    end.

(** [Path(path).exists()]: a file the handlers wrote, or something else
    the world has at that path. *)
Definition path_exists (w : World) (path : string) : M bool :=
  fun s => (Return (match fs s !! path with
                    | Some _ => true
                    | None => outside w path
                    end), s).

(** An oracle answer as a computation: the exception text raises. *)
Definition guard_error (o : option string) : M unit :=
  match o with
  | Some msg => raise (Exception msg)
  | None => ret tt
  end.

Definition of_sum {A} (r : string + A) : M A :=
  match r with
  | inl msg => raise (Exception msg)
  | inr a => ret a
  end.

(** ** The handlers *)

Section Handlers.

Variable w : World.

(** [str(uuid.uuid4())] *)
Definition uuid4 : M string :=
  fun s => (Return (uuid w (uuid_ctr s)),
            {| data_store := data_store s; fs := fs s;
               uuid_ctr := S (uuid_ctr s) |}).

Definition UPLOAD_DIR : string := "temp/uploads".
Definition OUTPUT_DIR : string := "temp/outputs".

(** The path under [OUTPUT_DIR] and the URL it is served at. *)
Definition output_path (id ext : string) : string :=
  OUTPUT_DIR +:+ "/" +:+ id +:+ "." +:+ ext.
Definition output_url (id ext : string) : string :=
  "/temp/outputs/" +:+ id +:+ "." +:+ ext.

(** The text of an optional form field that was found truthy. *)
Definition form_value (o : option string) : string :=
  match o with Some s => s | None => EmptyString end.

(** [bool(o)] for an optional form field. *)
Definition opt_truthy (o : option string) : bool :=
  match o with Some s => Py.truthy s | None => false end.

(** *** POST /api/upload *)

Definition accepted_extensions : list string := ["csv"; "xlsx"; "xls"].

(** [file.filename.split(".")[-1].lower()] *)
Definition file_extension (filename : string) : string :=
  Py.lower (Py.last_item (Py.split "." filename)).

(** The dictionary [upload_file] returns. *)
Record upload_reply := {
  up_file_id : string;
  up_filename : string;
  up_columns : list string;
  up_preview : list record
}.

(** The framework's rendering of the returned dictionary, after the
    handler's own [try] was left: a preview holding a [nan] makes the
    encoder raise, and the request is answered 500. *)
Definition send_reply (reply : upload_reply) : M upload_reply :=
  if json_compliant (up_preview reply) then ret reply
  else raise (Exception
                "Out of range float values are not JSON compliant").

(** [pd.read_csv] for a csv file, [pd.read_excel] otherwise. *)
Definition read_table (ext content : string) : string + DataFrame :=
  if String.eqb ext "csv" then read_csv w content
  else read_excel w content.

Definition upload_file (filename : option string) (content : string)
  : M upload_reply :=
  if negb (opt_truthy filename) then
    raise (HTTPException 400 "No file provided")
  else
    let filename := form_value filename in
    let ext := file_extension filename in
    if negb (Py.elem ext accepted_extensions) then
      raise (HTTPException 400 "Only CSV and Excel files are supported")
    else
      file_id <- uuid4 ;;
      let file_path := UPLOAD_DIR +:+ "/" +:+ file_id +:+ "." +:+ ext in
      write_file file_path (Upload content) ;;;
      reply <-
        try_except
          (df <- of_sum (read_table ext content) ;;
           set_entry file_id
             {| e_filename := filename; e_path := file_path;
                e_columns := columns df; e_df := df;
                e_dashboard := None |} ;;;
           ret {| up_file_id := file_id; up_filename := filename;
                  up_columns := columns df; up_preview := head w df |})
          (fun e => raise (HTTPException 500
                             ("Error processing file: " +:+ str_exn e))) ;;
      send_reply reply.

(** *** POST /api/visualize *)

Definition chart_of (viz_type : string) : option chart :=
  if String.eqb viz_type "bar" then Some Bar
  else if String.eqb viz_type "line" then Some Line
  else if String.eqb viz_type "scatter" then Some Scatter
  else if String.eqb viz_type "histogram" then Some Histogram
  else if String.eqb viz_type "box" then Some Box
  else None.

(** The [if]/[elif] chain on [viz_type]: the figure to draw, or the
    exception raised inside the [try]. *)
Definition build_figure (viz_type x_column : string)
    (y_column color_by : option string) : result image :=
  match chart_of viz_type with
  | Some Bar =>
      if negb (opt_truthy y_column)
      then Return (ImgChart Bar x_column None color_by)
      else Return (ImgChart Bar x_column y_column color_by)
  | Some Line =>
      if negb (opt_truthy y_column)
      then Raise (HTTPException 400 "Y column required for line chart")
      else Return (ImgChart Line x_column y_column color_by)
  | Some Scatter =>
      if negb (opt_truthy y_column)
      then Raise (HTTPException 400 "Y column required for scatter plot")
      else Return (ImgChart Scatter x_column y_column color_by)
  | Some Histogram => Return (ImgChart Histogram x_column None color_by)
  | Some Box =>
      if negb (opt_truthy y_column)
      then Return (ImgChart Box x_column None color_by)
      else Return (ImgChart Box x_column y_column color_by)
  | None =>
      Raise (HTTPException 400
               ("Unsupported visualization type: " +:+ viz_type))
  end.

Definition column_missing (c : option string) (df : DataFrame) : bool :=
  opt_truthy c && negb (Py.elem (form_value c) (columns df)).

Definition column_not_found (c : string) : exn :=
  HTTPException 400 ("Column " +:+ c +:+ " not found in data").

Definition create_visualization (file_id viz_type x_column : string)
    (y_column color_by : option string) : M string :=
  store <- get_store ;;
  match store !! file_id with
  | None => raise (HTTPException 404 "File not found")
  | Some data =>
      let df := e_df data in
      if negb (Py.elem x_column (columns df)) then
        raise (column_not_found x_column)
      else if column_missing y_column df then
        raise (column_not_found (form_value y_column))
      else if column_missing color_by df then
        raise (column_not_found (form_value color_by))
      else
        try_except
          (vis_id <- uuid4 ;;
           fig <- lift (build_figure viz_type x_column y_column color_by) ;;
           guard_error (plot_error w fig) ;;;
           write_file (output_path vis_id "png") (Image fig) ;;;
           ret (output_url vis_id "png"))
          (fun e => raise (HTTPException 500
                             ("Error creating visualization: "
                              +:+ str_exn e)))
  end.

(** *** POST /api/generate-report *)

(** [viz_path[1:]] when the path starts with a slash. *)
Definition without_leading_slash (viz_path : string) : string :=
  if Py.startswith "/" viz_path then Py.tail viz_path else viz_path.

(** The body of the loop over [enumerate(visualization_paths)]. A path
    at which nothing exists is skipped; whatever exists, a directory
    included, gets its caption. The caption is emitted before [pdf.image]
    is tried, so it stays when the embedding raises and the note follows
    it. *)
Fixpoint add_visualizations (i : nat) (paths : list string)
    (ops : list pdf_op) : M (list pdf_op) :=
  match paths with
  | [] => ret ops
  | viz_path :: rest =>
      let viz_path := without_leading_slash viz_path in
      present <- path_exists w viz_path ;;
      if negb present then add_visualizations (S i) rest ops
      else
        let ops :=
          (ops ++ [PdfCaption ("Visualization " +:+ pretty (S i))])%list in
        match embed_error w viz_path with
        | None =>
            add_visualizations (S i) rest (ops ++ [PdfImage viz_path])%list
        | Some msg =>
            add_visualizations (S i) rest
              (ops ++ [PdfNote ("Error adding visualization: " +:+ msg)])%list
        end
  end.

(** The title and the analysis paragraphs. *)
Definition report_text (filename analysis_text : string) : list pdf_op :=
  ([PdfTitle ("Data Analysis Report: " +:+ filename);
    PdfHeading "Analysis:"]
   ++ map PdfParagraph
        (List.filter (fun p => Py.truthy (Py.strip p))
                (Py.split Py.newline analysis_text)))%list.

Definition generate_report (file_id analysis_text : string)
    (visualization_paths : list string) : M string :=
  store <- get_store ;;
  match store !! file_id with
  | None => raise (HTTPException 404 "File not found")
  | Some data =>
      try_except
        (let ops := report_text (e_filename data) analysis_text in
         ops <- (match visualization_paths with
                 | [] => ret ops
                 | _ => add_visualizations 0 visualization_paths
                          (ops ++ [PdfHeading "Visualizations:"])%list
                 end) ;;
         report_id <- uuid4 ;;
         guard_error (write_error w (output_path report_id "pdf")) ;;;
         write_file (output_path report_id "pdf") (Report ops) ;;;
         ret (output_url report_id "pdf"))
        (fun e => raise (HTTPException 500
                           ("Error generating report: " +:+ str_exn e)))
  end.

(** *** The completion call shared by analyze and auto-analyze *)

(** [client.post], [raise_for_status], [response.json()] and
    [json.loads] of the message content. [raise_for_status] raises on
    every status outside 2xx, redirects included, which the client does
    not follow. *)
Definition call_completion (prompt : string) : M json :=
  match post w prompt with
  | NetworkFailure msg => raise (Exception msg)
  | Response status body =>
      if is_success status then of_sum (decode w body)
      else raise (HTTPStatusError status body)
  end.

(** The two [except] clauses closing both handlers. *)
Definition analysis_failed {A} (e : exn) : M A :=
  match e with
  | HTTPStatusError status text =>
      raise (HTTPException status ("Error from OpenRouter API: " +:+ text))
  | _ => raise (HTTPException 500 ("Error analyzing data: " +:+ str_exn e))
  end.

(** [k in j and j[k]]: the value when the key is there and truthy. *)
Definition truthy_item (j : json) (k : string) : M (option json) :=
  has <- lift (py_in k j) ;;
  if has then
    v <- lift (py_getitem j k) ;;
    ret (if truthy v then Some v else None)
  else ret None.

(** *** POST /api/analyze *)

Record analyze_reply := {
  an_analysis : json;
  an_insights : json;
  an_visualization : option string
}.

(** [exec(code, viz_namespace)]. The namespace binds [df] to the stored
    dataframe itself: what the code did to it before it returned, raised
    or was cut short is done to the store. *)
Definition run_code (file_id code : string) : M (bool * bool) :=
  df <- stored_df file_id ;;
  set_df file_id (snd (exec w code df)) ;;;
  match fst (exec w code df) with
  | ExecRaised msg => raise (Exception msg)
  | ExecDone ns_plt ns_fig => ret (ns_plt, ns_fig)
  | ExecAborted => abort
  end.

(** The inner [try] of [analyze_data]. [visualization_path] is assigned
    before the figure is saved, so it is returned even when saving
    raises; the [except] clause only records the error text. *)
Definition run_visualization_code (file_id : string)
    (ai_analysis code : json) : M (option string * json) :=
  let failed (path : option string) (msg : string) :=
    ai <- lift (py_setitem ai_analysis "visualization_error" (JStr msg)) ;;
    ret (path, ai) in
  match code with
  | JStr c =>
      r <- attempt (run_code file_id c) ;;
      match r with
      | inl e => failed None (str_exn e)
      | inr (_, ns_fig) =>
          if Py.contains "plt" c then
            vis_id <- uuid4 ;;
            match plot_error w (ImgMatplotlib c) with
            | Some msg => failed (Some (output_url vis_id "png")) msg
            | None =>
                write_file (output_path vis_id "png")
                           (Image (ImgMatplotlib c)) ;;;
                ret (Some (output_url vis_id "png"), ai_analysis)
            end
          else if Py.contains "px" c && ns_fig then
            vis_id <- uuid4 ;;
            match plot_error w (ImgPlotly c) with
            | Some msg => failed (Some (output_url vis_id "png")) msg
            | None =>
                write_file (output_path vis_id "png")
                           (Image (ImgPlotly c)) ;;;
                ret (Some (output_url vis_id "png"), ai_analysis)
            end
          else ret (None, ai_analysis)
      end
  | _ => failed None "exec() arg 1 must be a string, bytes or code object"
  end.

Definition analyze_data (file_id query : string) : M analyze_reply :=
  store <- get_store ;;
  match store !! file_id with
  | None => raise (HTTPException 404 "File not found")
  | Some data =>
      let df := e_df data in
      let prompt := analyze_prompt w query df in
      try_except
        (ai_analysis <- call_completion prompt ;;
         code <- truthy_item ai_analysis "visualization_code" ;;
         r <- (match code with
               | Some code => run_visualization_code file_id ai_analysis code
               | None => ret (None, ai_analysis)
               end) ;;
         let '(visualization_path, ai_analysis) := r in
         analysis <- lift (py_get ai_analysis "analysis"
                                  (JStr "No analysis provided")) ;;
         insights <- lift (py_get ai_analysis "insights"
                                  (JStr "No insights provided")) ;;
         ret {| an_analysis := analysis; an_insights := insights;
                an_visualization := visualization_path |})
        analysis_failed
  end.

(** *** POST /api/auto-analyze: rendering the requested slots *)

(** One element of [visualization_paths]. *)
Record viz := {
  v_path : string;
  v_title : json;
  v_description : json
}.

(** What an f-string prints for a parsed value. *)
Definition to_str (j : json) : string :=
  match j with JStr s => s | _ => str w j end.

(** The canned code of the first slot. *)
Definition hist_code (col : string) : string :=
  "
import seaborn as sns
plt.figure(figsize=(10, 6))
sns.histplot(df['" +:+ col +:+ "'], kde=True)
plt.title('Distribution of " +:+ col +:+ "')
plt.xlabel('" +:+ col +:+ "')
plt.ylabel('Count')
plt.tight_layout()
".

(** The canned code of the second slot. *)
Definition heatmap_code : string :=
  "
import seaborn as sns
plt.figure(figsize=(12, 10))
corr = df.select_dtypes(include=['number']).corr()
mask = np.triu(np.ones_like(corr, dtype=bool))
sns.heatmap(corr, mask=mask, annot=True, cmap='coolwarm', fmt='.2f', linewidths=0.5)
plt.title('Correlation Heatmap')
plt.tight_layout()
".

(** [viz_code] as assigned from [viz_item["code"]]; a truthy value that
    is not a string raises at [viz_code.strip()], the next thing done
    with it. *)
Definition read_code (viz_item : json) : M (option string) :=
  c <- truthy_item viz_item "code" ;;
  match c with
  | None => ret None
  | Some (JStr s) => ret (Some s)
  | Some j => raise (Exception ("'" +:+ type_name j
                                +:+ "' object has no attribute 'strip'"))
  end.

(** [not viz_code or len(viz_code.strip()) < 10] *)
Definition too_short (viz_code : option string) : bool :=
  match viz_code with
  | None => true
  | Some c => (Py.len (Py.strip c) <? 10)%nat
  end.

(** The substitution of a canned default, by slot index. *)
Definition substitute_default (df : DataFrame) (i : nat)
    (viz_item : json) (viz_code : option string)
  : M (option string * json) :=
  match i with
  | 0%nat =>
      match numeric_cols df with
      | col :: _ =>
          item <- lift (py_setitem viz_item "title"
                          (JStr ("Distribution of " +:+ col))) ;;
          item <- lift (py_setitem item "description"
                          (JStr ("Histogram showing the distribution of "
                                 +:+ col +:+ " values"))) ;;
          ret (Some (hist_code col), item)
      | [] => ret (viz_code, viz_item)
      end
  | 1%nat =>
      if (1 <? length (numeric_cols df))%nat then
        item <- lift (py_setitem viz_item "title"
                        (JStr "Correlation Heatmap")) ;;
        item <- lift (py_setitem item "description"
                        (JStr "Heatmap showing correlations between numeric variables")) ;;
        ret (Some heatmap_code, item)
      else ret (viz_code, viz_item)
  | _ => ret (viz_code, viz_item)
  end.

(** [viz_item.get("title", f"Visualization {i+1}")] *)
Definition slot_title (i : nat) (viz_item : json) : M json :=
  lift (py_get viz_item "title" (JStr ("Visualization " +:+ pretty (S i)))).

(** Saving a drawn image under [vis_id]. *)
Definition save_image (vis_id : string) (img : image) : M unit :=
  guard_error (plot_error w img) ;;;
  write_file (output_path vis_id "png") (Image img).

(** The last-resort chart of a slot: a histogram of the first numeric
    column, or the top values of the first column. *)
Definition fallback_image (df : DataFrame) : M image :=
  match numeric_cols df with
  | col :: _ => ret (ImgHist col)
  | [] =>
      match columns df with
      | col :: _ => ret (ImgTopValues col)
      | [] => raise (Exception
                "index 0 is out of bounds for axis 0 with size 0")
      end
  end.

(** The code a slot runs, after the substitution step, with the slot
    item carrying the canned title and description. *)
Definition effective_code (df : DataFrame) (i : nat) (viz_item : json)
  : M (option string * json) :=
  viz_code <- read_code viz_item ;;
  if too_short viz_code
  then substitute_default df i viz_item viz_code
  else ret (viz_code, viz_item).

(** The [try] body of one slot. The dataframe is the stored one, as the
    code run in earlier slots and in this one left it. *)
Definition render_slot (file_id : string) (i : nat) (viz_item : json)
    (visualization_paths : list viz) : M (list viz) :=
  df <- stored_df file_id ;;
  r <- effective_code df i viz_item ;;
  let '(viz_code, viz_item) := r in
  match viz_code with
  | None => ret visualization_paths
  | Some code =>
      ns <- run_code file_id code ;;
      let '(ns_plt, ns_fig) := ns in
      vis_id <- uuid4 ;;
      if ns_plt && Py.contains "plt" code then
        save_image vis_id (ImgMatplotlib code) ;;;
        title <- slot_title i viz_item ;;
        description <- lift (py_get viz_item "description"
                                    (JStr EmptyString)) ;;
        ret (visualization_paths
               ++ [{| v_path := output_url vis_id "png";
                      v_title := title;
                      v_description := description |}])%list
      else if Py.contains "px" code || Py.contains "go." code
              || ns_fig then
        if ns_fig then
          save_image vis_id (ImgPlotly code) ;;;
          title <- slot_title i viz_item ;;
          description <- lift (py_get viz_item "description"
                                      (JStr EmptyString)) ;;
          ret (visualization_paths
                 ++ [{| v_path := output_url vis_id "png";
                        v_title := title;
                        v_description := description |}])%list
        else ret visualization_paths
      else
        match visualization_paths with
        | [] =>
            df <- stored_df file_id ;;
            img <- fallback_image df ;;
            save_image vis_id img ;;;
            title <- slot_title i viz_item ;;
            ret [{| v_path := output_url vis_id "png";
                    v_title := JStr ("Fallback Visualization for "
                                     +:+ to_str title);
                    v_description :=
                      JStr "Automatically generated fallback visualization" |}]
        | _ => ret visualization_paths
        end
  end.

(** The [except] clause of one slot: the error text drawn as an image;
    if that raises too, the slot is dropped. *)
Definition error_tile (i : nat) (e : exn) (visualization_paths : list viz)
  : M (list viz) :=
  try_except
    (vis_id <- uuid4 ;;
     save_image vis_id
       (ImgErrorText ("Error generating visualization:"
                      +:+ String Py.newline (str_exn e))) ;;;
     ret (visualization_paths
            ++ [{| v_path := output_url vis_id "png";
                   v_title := JStr ("Error in Visualization "
                                    +:+ pretty (S i));
                   v_description := JStr ("Error: " +:+ str_exn e) |}])%list)
    (fun _ => ret visualization_paths).

Definition process_slot (file_id : string) (i : nat) (viz_item : json)
    (visualization_paths : list viz) : M (list viz) :=
  try_except (render_slot file_id i viz_item visualization_paths)
             (fun e => error_tile i e visualization_paths).

(** [for i, viz_item in enumerate(...)] *)
Fixpoint process_slots (file_id : string) (i : nat) (items : list json)
    (visualization_paths : list viz) : M (list viz) :=
  match items with
  | [] => ret visualization_paths
  | viz_item :: rest =>
      paths <- process_slot file_id i viz_item visualization_paths ;;
      process_slots file_id (S i) rest paths
  end.

(** The list the loop runs over: [ai_analysis["visualizations"]] when the
    key is there and holds a list, nothing otherwise. *)
Definition requested_visualizations (ai_analysis : json) : M (list json) :=
  has <- lift (py_in "visualizations" ai_analysis) ;;
  if has then
    v <- lift (py_getitem ai_analysis "visualizations") ;;
    ret (match v with JArr l => l | _ => [] end)
  else ret [].

(** The block run when no slot left an image: the overview panel, then
    the heatmap when two numeric columns exist. One [try] covers both in
    the source; an overview already appended stays when the heatmap
    raises. *)
Definition default_visualizations (df : DataFrame) : M (list viz) :=
  try_except
    (vis_id <- uuid4 ;;
     save_image vis_id (ImgOverview df) ;;;
     let overview :=
       {| v_path := output_url vis_id "png";
          v_title := JStr "Data Overview";
          v_description :=
            JStr "A summary of key characteristics in the dataset" |} in
     if (1 <? length (numeric_cols df))%nat then
       try_except
         (vis_id <- uuid4 ;;
          save_image vis_id ImgHeatmap ;;;
          ret [overview;
               {| v_path := output_url vis_id "png";
                  v_title := JStr "Correlation Heatmap";
                  v_description :=
                    JStr "Heatmap showing correlations between numeric variables" |}])
         (fun _ => ret [overview])
     else ret [overview])
    (fun _ => ret []).

(** *** POST /api/auto-analyze: the dashboard *)

Definition br (s : string) : string := Py.replace Py.newline "<br>" s.

Definition format_content (content : json) : string :=
  match content with
  | JStr s => br s
  | JObj _ | JArr _ => Py.replace " " "&nbsp;" (br (dumps w content))
  | _ => br (str w content)
  end.

(** A card of the dashboard:
    [format_content(ai_analysis.get(key, placeholder))] under its
    heading. *)
Definition section (ai_analysis : json) (heading key placeholder : string)
  : M piece :=
  v <- lift (py_get ai_analysis key (JStr placeholder)) ;;
  ret (Section_ heading (format_content v)).

Definition tile (v : viz) : piece :=
  Tile (to_str (v_title v)) (v_path v) (to_str (v_description v)).

(** [for change in changes]: what iterating the value yields. *)
Definition iterate (changes : json) : result (list string) :=
  match changes with
  | JArr l => Return (map to_str l)
  | JStr s =>
      Return (map (fun c => String c EmptyString) (list_ascii_of_string s))
  | JObj kv => Return (map fst kv)
  | _ => Raise (Exception
           ("'" +:+ type_name changes +:+ "' object is not iterable"))
  end.

(** The optional block on [preprocessed_data_info]. *)
Definition preprocessing_results (path : string) (ai_analysis : json)
  : M unit :=
  has <- lift (py_in "preprocessed_data_info" ai_analysis) ;;
  if has then
    info <- lift (py_getitem ai_analysis "preprocessed_data_info") ;;
    original <- lift (py_getitem info "original_shape") ;;
    preprocessed <- lift (py_getitem info "preprocessed_shape") ;;
    append_doc path
      [PreprocessingResults (to_str original) (to_str preprocessed)] ;;;
    changes <- lift (py_getitem info "changes") ;;
    if truthy changes then
      items <- lift (iterate changes) ;;
      append_doc path (map Change items)
    else append_doc path [NoChanges]
  else ret tt.

(** The optional block on [preprocessing_error]. *)
Definition preprocessing_warning (path : string) (ai_analysis : json)
  : M unit :=
  has <- lift (py_in "preprocessing_error" ai_analysis) ;;
  if has then
    msg <- lift (py_getitem ai_analysis "preprocessing_error") ;;
    append_doc path [PreprocessingWarning (to_str msg)]
  else ret tt.

(** The [with open(dashboard_path, "w")] block, write by write. *)
Definition write_dashboard (path : string) (data : entry)
    (ai_analysis : json) (visualization_paths : list viz) : M unit :=
  guard_error (write_error w path) ;;;
  write_file path (Dashboard []) ;;;
  quality <- section ai_analysis "Data Quality Assessment" "data_quality"
               "No data quality assessment available" ;;
  statistics <- section ai_analysis "Key Statistics" "statistics"
                  "No statistics available" ;;
  correlations <- section ai_analysis "Correlation Analysis" "correlations"
                    "No correlation analysis available" ;;
  patterns <- section ai_analysis "Patterns and Trends" "patterns"
                "No patterns identified" ;;
  append_doc path
    [Header (e_filename data) (df_rows (e_df data))
            (length (columns (e_df data)));
     quality; statistics; correlations; patterns] ;;;
  append_doc path
    (match visualization_paths with
     | [] => [NoVisualizations]
     | _ => map tile visualization_paths
     end) ;;;
  preprocessing <- section ai_analysis "Recommended Preprocessing Steps"
                     "preprocessing"
                     "No preprocessing recommendations available" ;;
  append_doc path [preprocessing] ;;;
  preprocessing_results path ai_analysis ;;;
  preprocessing_warning path ai_analysis ;;;
  insights <- section ai_analysis "Key Insights" "insights"
                "No insights available" ;;
  append_doc path [insights].

(** *** POST /api/auto-analyze *)

Record auto_reply := {
  au_dashboard_url : string;
  au_data_quality : json;
  au_statistics : json;
  au_correlations : json;
  au_patterns : json;
  au_insights : json;
  au_visualizations : list viz
}.

(** The [try] body after the completion call. The default block and the
    header of the dashboard read the dataframe as the slots left it. *)
Definition build_dashboard (file_id : string) (ai_analysis : json)
  : M auto_reply :=
  items <- requested_visualizations ai_analysis ;;
  visualization_paths <- process_slots file_id 0 items [] ;;
  df <- stored_df file_id ;;
  visualization_paths <-
    (match visualization_paths with
     | [] => default_visualizations df
     | _ => ret visualization_paths
     end) ;;
  dashboard_id <- uuid4 ;;
  data <- stored_entry file_id ;;
  write_dashboard (output_path dashboard_id "html") data ai_analysis
                  visualization_paths ;;;
  set_dashboard file_id (output_url dashboard_id "html") ;;;
  let field k := lift (py_get ai_analysis k (JStr EmptyString)) in
  data_quality <- field "data_quality" ;;
  statistics <- field "statistics" ;;
  correlations <- field "correlations" ;;
  patterns <- field "patterns" ;;
  insights <- field "insights" ;;
  ret {| au_dashboard_url := output_url dashboard_id "html";
         au_data_quality := data_quality;
         au_statistics := statistics;
         au_correlations := correlations;
         au_patterns := patterns;
         au_insights := insights;
         au_visualizations := visualization_paths |}.

Definition auto_analyze_data (file_id : string) : M auto_reply :=
  store <- get_store ;;
  match store !! file_id with
  | None => raise (HTTPException 404 "File not found")
  | Some data =>
      let prompt := auto_prompt w (e_df data) in
      try_except
        (ai_analysis <- call_completion prompt ;;
         build_dashboard file_id ai_analysis)
        analysis_failed
  end.

End Handlers.

(** ** Concrete worlds and states, to run the handlers on *)

Definition names_df : DataFrame :=
  {| df_cols := [("name", DObject); ("city", DObject)]; df_rows := 3 |}.

Definition flags_df : DataFrame :=
  {| df_cols := [("active", DOther)]; df_rows := 3 |}.

Definition sales_df : DataFrame :=
  {| df_cols := [("region", DObject); ("units", DNumber); ("price", DNumber)];
     df_rows := 4 |}.

(** What the working directory holds before any request: itself and the
    directories created at start-up. *)
Definition directories : list string :=
  [EmptyString; "."; "temp"; "temp/uploads"; "temp/outputs"].

(** One preview row without a missing cell. *)
Definition full_row (df : DataFrame) : record :=
  map (fun c => (c, Value (JNum 1))) (columns df).

(** A world where every external call succeeds, the model answers with
    the empty JSON object and generated code leaves the dataframe alone
    and no figure behind. *)
Definition ok_world : World := {|
  uuid := fun n => "u" +:+ pretty n;
  read_csv := fun _ => inr names_df;
  read_excel := fun _ => inr sales_df;
  analyze_prompt := fun query _ => query;
  auto_prompt := fun _ => "auto";
  post := fun _ => Response 200 "ok";
  decode := fun _ => inr (JObj []);
  head := fun df => [full_row df];
  exec := fun _ df => (ExecDone true false, df);
  outside := fun path => Py.elem path directories;
  plot_error := fun _ => None;
  embed_error := fun _ => None;
  write_error := fun _ => None;
  dumps := fun _ => "{}";
  str := fun _ => "None"
|}.

(** A world whose completion service answers as given, whose csv parser
    rejects every file and whose PDF library cannot embed any image. *)
Definition world_with (up : upstream) (reply : string + json) : World := {|
  uuid := uuid ok_world;
  read_csv := fun _ => inl "No columns to parse from file";
  read_excel := read_excel ok_world;
  analyze_prompt := analyze_prompt ok_world;
  auto_prompt := auto_prompt ok_world;
  post := fun _ => up;
  decode := fun _ => reply;
  head := head ok_world;
  exec := exec ok_world;
  outside := outside ok_world;
  plot_error := plot_error ok_world;
  embed_error := fun _ => Some "cannot identify image file";
  write_error := write_error ok_world;
  dumps := dumps ok_world;
  str := str ok_world
|}.

(** The same world with a plotting back end that always raises. *)
Definition world_without_plots : World := {|
  uuid := uuid ok_world;
  read_csv := read_csv ok_world;
  read_excel := read_excel ok_world;
  analyze_prompt := analyze_prompt ok_world;
  auto_prompt := auto_prompt ok_world;
  post := post ok_world;
  decode := decode ok_world;
  head := head ok_world;
  exec := exec ok_world;
  outside := outside ok_world;
  plot_error := fun _ => Some "no display";
  embed_error := embed_error ok_world;
  write_error := write_error ok_world;
  dumps := dumps ok_world;
  str := str ok_world
|}.

(** A world where generated code behaves as [run] says and the model
    answers [reply]. *)
Definition world_running
    (run : string -> DataFrame -> exec_outcome * DataFrame) (reply : json)
  : World := {|
  uuid := uuid ok_world;
  read_csv := read_csv ok_world;
  read_excel := read_excel ok_world;
  analyze_prompt := analyze_prompt ok_world;
  auto_prompt := auto_prompt ok_world;
  post := post ok_world;
  decode := fun _ => inr reply;
  head := head ok_world;
  exec := run;
  outside := outside ok_world;
  plot_error := plot_error ok_world;
  embed_error := embed_error ok_world;
  write_error := write_error ok_world;
  dumps := dumps ok_world;
  str := str ok_world
|}.

(** A world where no dashboard can be opened for writing and no PDF can
    be written: the dashboard directory is read-only, and the text of the
    report does not fit Latin-1. *)
Definition world_without_writes : World := {|
  uuid := uuid ok_world;
  read_csv := read_csv ok_world;
  read_excel := read_excel ok_world;
  analyze_prompt := analyze_prompt ok_world;
  auto_prompt := auto_prompt ok_world;
  post := post ok_world;
  decode := decode ok_world;
  head := head ok_world;
  exec := exec ok_world;
  outside := outside ok_world;
  plot_error := plot_error ok_world;
  embed_error := embed_error ok_world;
  write_error := fun path =>
    if Py.endswith ".pdf" path
    then Some "'latin-1' codec can't encode character"
    else Some "[Errno 13] Permission denied";
  dumps := dumps ok_world;
  str := str ok_world
|}.

(** A world whose uploads have a missing cell in their first rows. *)
Definition world_with_gaps : World := {|
  uuid := uuid ok_world;
  read_csv := read_csv ok_world;
  read_excel := read_excel ok_world;
  analyze_prompt := analyze_prompt ok_world;
  auto_prompt := auto_prompt ok_world;
  post := post ok_world;
  decode := decode ok_world;
  head := fun df => [full_row df; map (fun c => (c, NaN)) (columns df)];
  exec := exec ok_world;
  outside := outside ok_world;
  plot_error := plot_error ok_world;
  embed_error := embed_error ok_world;
  write_error := write_error ok_world;
  dumps := dumps ok_world;
  str := str ok_world
|}.

(** Generated code that ends the interpreter, after dropping the columns
    of the dataframe it was handed. *)
Definition exit_code : string -> DataFrame -> exec_outcome * DataFrame :=
  fun _ _ => (ExecAborted, {| df_cols := []; df_rows := 0 |}).

(** Generated code that adds a numeric column to the dataframe it was
    handed and leaves no figure. *)
Definition add_column_code
  : string -> DataFrame -> exec_outcome * DataFrame :=
  fun _ df => (ExecDone true false,
               {| df_cols := (df_cols df ++ [("total", DNumber)])%list;
                  df_rows := df_rows df |}).

Definition empty_state : state :=
  {| data_store := ∅; fs := ∅; uuid_ctr := 0 |}.

Definition entry_of (filename : string) (df : DataFrame) : entry :=
  {| e_filename := filename; e_path := "temp/uploads/" +:+ filename;
     e_columns := columns df; e_df := df; e_dashboard := None |}.

(** A store holding one dataset under the identifier ["d1"]. *)
Definition state_with (df : DataFrame) : state :=
  {| data_store := {["d1" := entry_of "d1.csv" df]};
     fs := {["temp/outputs/a.png" := Image ImgHeatmap]};
     uuid_ctr := 0 |}.

(** ** The dashboard of a reply that is a JSON object *)

(** The state after [path] was given the dashboard [doc]. *)
Definition with_doc (st : state) (path : string) (doc : list piece) : state :=
  {| data_store := data_store st;
     fs := <[path := Dashboard doc]> (fs st);
     uuid_ctr := uuid_ctr st |}.

(** The cards of the template: heading, key of the reply, placeholder. *)
Definition declared_sections : list (string * string * string) :=
  [("Data Quality Assessment", "data_quality",
    "No data quality assessment available");
   ("Key Statistics", "statistics", "No statistics available");
   ("Correlation Analysis", "correlations",
    "No correlation analysis available");
   ("Patterns and Trends", "patterns", "No patterns identified");
   ("Recommended Preprocessing Steps", "preprocessing",
    "No preprocessing recommendations available");
   ("Key Insights", "insights", "No insights available")].

(** A card for the reply [kv]. *)
Definition rendered (w : World) (kv : list (string * json))
    (heading key placeholder : string) : piece :=
  Section_ heading
    (format_content w (match assoc key kv with
                       | Some v => v
                       | None => JStr placeholder
                       end)).

(** The optional warning block for the reply [kv]. *)
Definition warning_pieces (w : World) (kv : list (string * json))
  : list piece :=
  match assoc "preprocessing_error" kv with
  | Some msg => [PreprocessingWarning (to_str w msg)]
  | None => []
  end.

(** [preprocessed_data_info] is absent, or an object holding
    [original_shape], [preprocessed_shape] and a [changes] value that is
    falsy or can be iterated. *)
Definition well_formed_info (kv : list (string * json)) : bool :=
  match assoc "preprocessed_data_info" kv with
  | None => true
  | Some (JObj info) =>
      match assoc "original_shape" info, assoc "preprocessed_shape" info,
            assoc "changes" info with
      | Some _, Some _, Some changes =>
          negb (truthy changes)
          || match changes with
             | JArr _ | JStr _ | JObj _ => true
             | _ => false
             end
      | _, _, _ => false
      end
  | Some _ => false
  end.

(** The optional results block for the reply [kv]. *)
Definition results_pieces (w : World) (kv : list (string * json))
  : list piece :=
  match assoc "preprocessed_data_info" kv with
  | Some (JObj info) =>
      match assoc "original_shape" info, assoc "preprocessed_shape" info,
            assoc "changes" info with
      | Some original, Some preprocessed, Some changes =>
          PreprocessingResults (to_str w original) (to_str w preprocessed)
          :: (if truthy changes then
                match iterate w changes with
                | Return items => map Change items
                | _ => []
                end
              else [NoChanges])
      | _, _, _ => []
      end
  | _ => []
  end.

(** The whole document written for a reply [kv] whose
    [preprocessed_data_info] is well formed. *)
Definition object_dashboard (w : World) (data : entry)
    (kv : list (string * json)) (visualization_paths : list viz)
  : list piece :=
  ([Header (e_filename data) (df_rows (e_df data))
           (length (columns (e_df data)));
    rendered w kv "Data Quality Assessment" "data_quality"
             "No data quality assessment available";
    rendered w kv "Key Statistics" "statistics" "No statistics available";
    rendered w kv "Correlation Analysis" "correlations"
             "No correlation analysis available";
    rendered w kv "Patterns and Trends" "patterns" "No patterns identified"]
   ++ (match visualization_paths with
       | [] => [NoVisualizations]
       | _ => map (tile w) visualization_paths
       end)
   ++ [rendered w kv "Recommended Preprocessing Steps" "preprocessing"
                "No preprocessing recommendations available"]
   ++ results_pieces w kv
   ++ warning_pieces w kv
   ++ [rendered w kv "Key Insights" "insights" "No insights available"])%list.

(** The wording "No X available", with or without a closing full stop. *)
Definition no_x_available (s : string) : bool :=
  Py.startswith "No " s
  && (Py.endswith " available" s || Py.endswith " available." s).

(** ** The slots and the report, as the specification words them *)

(** The code of an object slot as the handler reads it: the string under
    ["code"], when there is one and it is not empty. *)
Definition supplied_code (kv : list (string * json)) : option string :=
  match assoc "code" kv with
  | Some (JStr c) => if Py.truthy c then Some c else None
  | _ => None
  end.

(** The code of an object slot is absent (no ["code"] key, or a falsy
    value under it), or a string of fewer than 10 characters once
    stripped. *)
Definition code_absent_or_short (kv : list (string * json)) : bool :=
  match assoc "code" kv with
  | None => true
  | Some v =>
      negb (truthy v)
      || match v with
         | JStr c => (Py.len (Py.strip c) <? 10)%nat
         | _ => false
         end
  end.

(** What the visualizations part of the report holds for [paths], given
    what exists: nothing for a path at which nothing exists; otherwise
    the caption numbered by the position in the list, followed by the
    image, or by the error note when the image cannot be embedded. *)
Fixpoint captioned_images (w : World) (present : string -> bool) (i : nat)
    (paths : list string) : list pdf_op :=
  match paths with
  | [] => []
  | viz_path :: rest =>
      let p := without_leading_slash viz_path in
      ((if present p then
          [PdfCaption ("Visualization " +:+ pretty (S i));
           match embed_error w p with
           | None => PdfImage p
           | Some msg => PdfNote ("Error adding visualization: " +:+ msg)
           end]
        else [])
       ++ captioned_images w present (S i) rest)%list
  end.

(** What [Path(p).exists()] answers in the state [s]. *)
Definition present_in (w : World) (s : state) (p : string) : bool :=
  match fs s !! p with Some _ => true | None => outside w p end.

(** No generated code leaves [exec] by a [BaseException] outside
    [Exception], and all of it comes back. *)
Definition exec_comes_back (w : World) : Prop :=
  forall code df, fst (exec w code df) <> ExecAborted.

(** Generated code leaves the dataframe it is handed as it was. *)
Definition exec_keeps_df (w : World) : Prop :=
  forall code df, snd (exec w code df) = df.

(** ** Outcomes of a computation *)

(** The computation leaves the data store as it found it. *)
Definition keeps_store {A} (m : M A) : Prop :=
  forall s, data_store (snd (m s)) = data_store s.

(** Whatever the computation raises is an ordinary exception: neither an
    [HTTPException] nor httpx's [HTTPStatusError]. *)
Definition plain_result {A} (r : result A) : Prop :=
  forall e, r = Raise e -> exists msg, e = Exception msg.

Definition raises_plain {A} (m : M A) : Prop :=
  forall s, plain_result (fst (m s)).

(** The computation returns from every state. *)
Definition never_raises {A} (m : M A) : Prop :=
  forall s, exists a, fst (m s) = Return a.

(** The computation is never cut short: it returns or raises. *)
Definition comes_back {A} (m : M A) : Prop :=
  forall s, fst (m s) <> Aborted.

(** ** Serving generated files *)

(** [FileResponse(path)]: the content of the file. *)
Definition read_file (path : string) : M blob :=
  fun s =>
    match fs s !! path with
    | Some b => (Return b, s)
    | None => (Raise (Exception ("File at path " +:+ path
                                 +:+ " does not exist.")), s)
    end.

(** [GET /temp/outputs/{filename}] *)
Definition get_output_file (w : World) (filename : string) : M blob :=
  let file_path := OUTPUT_DIR +:+ "/" +:+ filename in
  present <- path_exists w file_path ;;
  if negb present then raise (HTTPException 404 "File not found")
  else read_file file_path.

(** ** Assertions on computations *)

(** From a state satisfying [P], the computation returns into [Q], or
    raises or is cut short in a state satisfying [E]. *)
Definition triple {A} (P : state -> Prop) (m : M A)
    (Q : A -> state -> Prop) (E : state -> Prop) : Prop :=
  forall s, P s ->
    match m s with
    | (Return a, s') => Q a s'
    | (Raise _, s') => E s'
    | (Aborted, s') => E s'
    end.

(** Every file of [s] is still there in [s']. *)
Definition grows (s s' : state) : Prop :=
  forall path, is_Some (fs s !! path) -> is_Some (fs s' !! path).

(** The computation removes no file. *)
Definition keeps_files {A} (m : M A) : Prop :=
  forall s, grows s (snd (m s)).

(** The image a listed visualization points to is in the working
    directory. *)
Definition on_disk (s : state) (v : viz) : Prop :=
  is_Some (fs s !! without_leading_slash (v_path v)).

Definition is_tile (p : piece) : bool :=
  match p with Tile _ _ _ => true | _ => false end.

(** Two store entries for the same upload: what [upload_file] recorded
    (filename, path, column list) agrees. *)
Definition same_upload (e e' : entry) : Prop :=
  e_filename e = e_filename e' /\ e_path e = e_path e'
  /\ e_columns e = e_columns e'.

(** All but the dataframe agree. *)
Definition same_but_df (e e' : entry) : Prop :=
  same_upload e e' /\ e_dashboard e = e_dashboard e'.

(** All but the dashboard agree. *)
Definition same_data (e e' : entry) : Prop :=
  same_upload e e' /\ e_df e = e_df e'.

(** From [s] to [s'] the store kept its keys, changed nothing outside
    [file_id], and changed the entry of [file_id] within [R]. *)
Definition changed_within (R : entry -> entry -> Prop) (file_id : string)
    (s s' : state) : Prop :=
  (forall other, other <> file_id ->
     data_store s' !! other = data_store s !! other)
  /\ (data_store s !! file_id = None -> data_store s' !! file_id = None)
  /\ (forall e, data_store s !! file_id = Some e ->
        exists e', data_store s' !! file_id = Some e' /\ R e e').

(** The computation changes the store within [R] at [file_id] only. *)
Definition confined {A} (R : entry -> entry -> Prop) (file_id : string)
    (m : M A) : Prop :=
  forall s, changed_within R file_id s (snd (m s)).

(** An assertion that stays true when files are added. *)
Definition stable (P : state -> Prop) : Prop :=
  forall s s', grows s s' -> P s -> P s'.

Definition has_file (path : string) (s : state) : Prop :=
  is_Some (fs s !! path).

Definition all_on_disk (paths : list viz) (s : state) : Prop :=
  Forall (on_disk s) paths.

(** The file at [path] is a dashboard whose tiles are [tiles], in order. *)
Definition has_tiles (path : string) (tiles : list piece) (s : state)
  : Prop :=
  exists doc,
    fs s !! path = Some (Dashboard doc) /\ List.filter is_tile doc = tiles.

(** * Properties *)

(** Unfolding of the handler monad. *)
Ltac run :=
  unfold bind, ret, raise, lift, try_except, get_store, guard_error, of_sum;
  simpl.

(** ** Upload *)

Section Upload.

Variable w : World.

Lemma split_no_separator (s : string) :
  Py.contains "." s = false -> Py.split "." s = [s].
Proof.
  induction s as [|c s IH]; [reflexivity|].
  cbn [Py.contains Py.startswith Py.split].
  destruct (Ascii.eqb "." c); cbn [andb orb]; [discriminate|].
  intros Hs. now rewrite (IH Hs).
Qed.

Lemma extension_of_dotless (filename : string) :
  Py.contains "." filename = false ->
  file_extension filename = Py.lower filename.
Proof.
  intros H. unfold file_extension. now rewrite (split_no_separator _ H).
Qed.

Lemma accepted_not_empty (filename : string) :
  Py.elem (file_extension filename) accepted_extensions = true ->
  Py.truthy filename = true.
Proof. destruct filename; [discriminate | reflexivity]. Qed.

(** C6. An upload whose extension (the text after the last dot, in lower
    case) is not csv, xlsx or xls is answered with status 400, and the
    whole state, the data store included, is the one before the
    request. *)
Theorem upload_rejects_other_extensions
    (st : state) (filename : option string) (content : string) :
  Py.elem (file_extension (form_value filename))
          accepted_extensions = false ->
  exists detail,
    upload_file w filename content st
    = (Raise (HTTPException 400 detail), st)
    /\ is_client_error 400 = true.
Proof.
  intros Hext. unfold upload_file.
  destruct filename as [[|c f]|]; simpl in *.
  - eexists; split; reflexivity.
  - rewrite Hext. eexists; split; reflexivity.
  - eexists; split; reflexivity.
Qed.

(** C9. When the extension is accepted and the dataframe parser raises,
    the answer is status 500, the data store is the one before the
    request, and the uploaded bytes are already on disk under the new
    identifier. *)
Theorem upload_parse_failure_keeps_store
    (st : state) (filename content msg : string) :
  Py.elem (file_extension filename) accepted_extensions = true ->
  read_table w (file_extension filename) content = inl msg ->
  exists st',
    upload_file w (Some filename) content st
    = (Raise (HTTPException 500 ("Error processing file: " +:+ msg)), st')
    /\ is_server_error 500 = true
    /\ data_store st' = data_store st
    /\ fs st' !! (UPLOAD_DIR +:+ "/" +:+ uuid w (uuid_ctr st) +:+ "."
                  +:+ file_extension filename)
       = Some (Upload content).
Proof.
  intros Hext Hparse. unfold upload_file, opt_truthy.
  rewrite (accepted_not_empty _ Hext). cbn [negb form_value].
  rewrite Hext. cbn [negb].
  unfold bind, try_except, uuid4, write_file, of_sum. cbn [uuid_ctr fs data_store].
  rewrite Hparse. unfold raise.
  eexists. split; [reflexivity|]. split; [reflexivity|].
  split; [reflexivity|]. cbn [fs]. apply lookup_insert_eq.
Qed.

(** C10, amended. For a filename without a dot the extension is the whole
    filename in lower case: the upload passes the extension check exactly
    when that lower-case name is csv, xlsx or xls, and is answered 400
    otherwise, leaving the state as it was. *)
Theorem dotless_filename_is_its_extension
    (st : state) (filename content : string) :
  Py.contains "." filename = false ->
  file_extension filename = Py.lower filename
  /\ (Py.elem (Py.lower filename) accepted_extensions = true ->
      status_of (fst (upload_file w (Some filename) content st)) <> 400)
  /\ (Py.elem (Py.lower filename) accepted_extensions = false ->
      upload_file w (Some filename) content st
      = (Raise (HTTPException 400 (if Py.truthy filename
                                   then "Only CSV and Excel files are supported"
                                   else "No file provided")), st)).
Proof.
  intros Hdot. pose proof (extension_of_dotless _ Hdot) as Hext.
  split; [exact Hext|]. split; intros Hacc.
  - rewrite <- Hext in Hacc. unfold upload_file, opt_truthy.
    rewrite (accepted_not_empty _ Hacc). cbn [negb form_value].
    rewrite Hacc. cbn [negb].
    unfold bind, try_except, uuid4, write_file, of_sum, send_reply.
    unfold ret, raise.
    destruct (read_table w (file_extension filename) content) as [msg|df];
      cbn -[json_compliant]; [discriminate|].
    destruct (json_compliant (head w df)); cbn; discriminate.
  - rewrite <- Hext in Hacc. unfold upload_file.
    destruct filename as [|c f]; simpl in *; [reflexivity|].
    rewrite Hacc. reflexivity.
Qed.

End Upload.

Lemma upload_rejects_other_extensions_witness :
  Py.elem (file_extension (form_value (Some "notes.txt")))
          accepted_extensions = false
  /\ exists detail,
       upload_file ok_world (Some "notes.txt") "hello" empty_state
       = (Raise (HTTPException 400 detail), empty_state)
       /\ is_client_error 400 = true.
Proof.
  split; [reflexivity|].
  apply (upload_rejects_other_extensions ok_world empty_state
           (Some "notes.txt") "hello").
  reflexivity.
Defined.

Lemma upload_parse_failure_keeps_store_witness :
  exists st',
    upload_file (world_with (Response 200 "ok") (inl "bad")) (Some "t.csv")
                "" empty_state
    = (Raise (HTTPException 500
                ("Error processing file: "
                 +:+ "No columns to parse from file")), st')
    /\ is_server_error 500 = true
    /\ data_store st' = data_store empty_state
    /\ fs st' !! (UPLOAD_DIR +:+ "/" +:+ uuid ok_world 0 +:+ "."
                  +:+ file_extension "t.csv")
       = Some (Upload "").
Proof.
  apply (upload_parse_failure_keeps_store
           (world_with (Response 200 "ok") (inl "bad")) empty_state
           "t.csv" "" "No columns to parse from file");
    reflexivity.
Defined.

Lemma dotless_filename_is_its_extension_witness :
  file_extension "Xls" = Py.lower "Xls"
  /\ status_of (fst (upload_file ok_world (Some "Xls") "" empty_state)) <> 400.
Proof.
  destruct (dotless_filename_is_its_extension ok_world empty_state "Xls" ""
              eq_refl) as (He & Hacc & _).
  split; [exact He | apply Hacc; reflexivity].
Defined.

(** C10 as stated fails: the dotless name [CSV] is none of csv, xlsx, xls,
    and the upload is accepted. *)
Lemma dotless_uppercase_name_accepted :
  Py.contains "." "CSV" = false
  /\ Py.elem "CSV" accepted_extensions = false
  /\ status_of (fst (upload_file ok_world (Some "CSV") "a,b" empty_state))
     = 200.
Proof. repeat split. Qed.

(** ** Unknown identifiers *)

(** C2. For a [file_id] that is not in the data store, analyze, visualize,
    generate-report and auto-analyze all answer 404 "File not found" and
    hand back the state untouched: no identifier drawn, no file written,
    no oracle consulted. 404 is not a server failure. *)
Theorem unknown_file_id_is_not_found
    (w : World) (st : state) (file_id : string) :
  data_store st !! file_id = None ->
  (forall query,
      analyze_data w file_id query st
      = (Raise (HTTPException 404 "File not found"), st))
  /\ (forall viz_type x_column y_column color_by,
         create_visualization w file_id viz_type x_column y_column color_by st
         = (Raise (HTTPException 404 "File not found"), st))
  /\ (forall analysis_text visualization_paths,
         generate_report w file_id analysis_text visualization_paths st
         = (Raise (HTTPException 404 "File not found"), st))
  /\ auto_analyze_data w file_id st
     = (Raise (HTTPException 404 "File not found"), st)
  /\ is_server_error 404 = false.
Proof.
  intros Hnone.
  repeat split; intros;
    unfold analyze_data, create_visualization, generate_report,
      auto_analyze_data, bind, get_store;
    rewrite Hnone; reflexivity.
Qed.

Lemma unknown_file_id_is_not_found_witness :
  data_store (state_with names_df) !! "d2" = None
  /\ auto_analyze_data ok_world "d2" (state_with names_df)
     = (Raise (HTTPException 404 "File not found"), state_with names_df).
Proof.
  split; [reflexivity|].
  apply (unknown_file_id_is_not_found ok_world (state_with names_df) "d2").
  reflexivity.
Defined.

(** ** Declarative charts *)

(** An [x_column] the dataset does not have is refused with status 400,
    and the message names the column. *)
Lemma visualize_unknown_x_column
    (w : World) (st : state) (file_id viz_type x_column : string)
    (y_column color_by : option string) (data : entry) :
  data_store st !! file_id = Some data ->
  Py.elem x_column (columns (e_df data)) = false ->
  create_visualization w file_id viz_type x_column y_column color_by st
  = (Raise (HTTPException 400 ("Column " +:+ x_column
                               +:+ " not found in data")), st).
Proof.
  intros Hdata Hx. unfold create_visualization, bind, get_store.
  rewrite Hdata. cbn [e_df]. rewrite Hx. reflexivity.
Qed.

(** Whatever the [if]/[elif] chain raises inside the [try] leaves the
    handler as status 500: the closing [except Exception] catches the
    [HTTPException] too. *)
Lemma visualize_raise_in_try_is_500
    (w : World) (st : state) (file_id viz_type x_column : string)
    (y_column color_by : option string) (data : entry) (e : exn) :
  data_store st !! file_id = Some data ->
  Py.elem x_column (columns (e_df data)) = true ->
  column_missing y_column (e_df data) = false ->
  column_missing color_by (e_df data) = false ->
  build_figure viz_type x_column y_column color_by = Raise e ->
  fst (create_visualization w file_id viz_type x_column y_column color_by st)
  = Raise (HTTPException 500 ("Error creating visualization: "
                              +:+ str_exn e)).
Proof.
  intros Hdata Hx Hy Hc Hfig.
  unfold create_visualization, bind, get_store.
  rewrite Hdata. cbn [e_df negb]. rewrite Hx, Hy, Hc. cbn [negb].
  unfold try_except, bind, uuid4, lift. rewrite Hfig. reflexivity.
Qed.

(** C1, on the code. With a line chart (or a scatter plot) and no Y column,
    and with an unsupported chart type, the handler answers 500, not 400:
    the 400 it raises is caught by its own [except Exception]. Only the
    unknown [x_column] is answered 400. *)
Theorem visualize_required_column_status (w : World) :
  fst (create_visualization w "d1" "line" "region" None None
         (state_with sales_df))
  = Raise (HTTPException 500
      "Error creating visualization: 400: Y column required for line chart")
  /\ fst (create_visualization w "d1" "scatter" "region" None None
            (state_with sales_df))
     = Raise (HTTPException 500
         "Error creating visualization: 400: Y column required for scatter plot")
  /\ fst (create_visualization w "d1" "pie" "region" None None
            (state_with sales_df))
     = Raise (HTTPException 500
         "Error creating visualization: 400: Unsupported visualization type: pie")
  /\ fst (create_visualization w "d1" "line" "weight" None None
            (state_with sales_df))
     = Raise (HTTPException 400 "Column weight not found in data").
Proof. repeat split. Qed.

(** ** Steps of the handler monad *)

Lemma bind_return {A B} (m : M A) (f : A -> M B) (s s' : state) (a : A) :
  m s = (Return a, s') -> bind m f s = f a s'.
Proof. intros H. unfold bind. now rewrite H. Qed.

Lemma bind_raise {A B} (m : M A) (f : A -> M B) (s s' : state) (e : exn) :
  m s = (Raise e, s') -> bind m f s = (Raise e, s').
Proof. intros H. unfold bind. now rewrite H. Qed.

Lemma bind_aborted {A B} (m : M A) (f : A -> M B) (s s' : state) :
  m s = (Aborted, s') -> bind m f s = (Aborted, s').
Proof. intros H. unfold bind. now rewrite H. Qed.

Lemma try_return {A} (m : M A) (h : exn -> M A) (s s' : state) (a : A) :
  m s = (Return a, s') -> try_except m h s = (Return a, s').
Proof. intros H. unfold try_except. now rewrite H. Qed.

Lemma try_raise {A} (m : M A) (h : exn -> M A) (s s' : state) (e : exn) :
  m s = (Raise e, s') -> try_except m h s = h e s'.
Proof. intros H. unfold try_except. now rewrite H. Qed.

Lemma chars_app (a b : string) :
  list_ascii_of_string (a +:+ b)
  = (list_ascii_of_string a ++ list_ascii_of_string b)%list.
Proof.
  induction a as [|c a IH]; [reflexivity|].
  change (String c a +:+ b) with (String c (a +:+ b)).
  cbn [list_ascii_of_string app]. now rewrite IH.
Qed.

(** An image and a dashboard never share a path. *)
Lemma png_is_not_html (a b : string) :
  output_path a "png" <> output_path b "html".
Proof.
  unfold output_path. intros H.
  apply (f_equal (fun s => List.rev (list_ascii_of_string s))) in H.
  rewrite !chars_app, !rev_app_distr in H. cbn in H. discriminate H.
Qed.

Lemma stored_entry_present (file_id : string) (s : state) (e : entry) :
  data_store s !! file_id = Some e ->
  stored_entry file_id s = (Return e, s).
Proof. intros H. unfold stored_entry. now rewrite H. Qed.

Lemma stored_df_present (file_id : string) (s : state) (e : entry) :
  data_store s !! file_id = Some e ->
  stored_df file_id s = (Return (e_df e), s).
Proof.
  intros H. unfold stored_df.
  now rewrite (bind_return _ _ _ _ _ (stored_entry_present _ _ _ H)).
Qed.

(** ** The PDF report *)

Section Report.

Variable w : World.

Lemma path_exists_present (st : state) (path : string) :
  path_exists w path st = (Return (present_in w st path), st).
Proof. reflexivity. Qed.

Lemma present_in_file (st : state) (path : string) (b : blob) :
  fs st !! path = Some b -> present_in w st path = true.
Proof. intros H. unfold present_in. now rewrite H. Qed.

Lemma add_visualizations_embeds
    (st : state) (i : nat) (viz_path : string) (rest : list string)
    (ops : list pdf_op) (b : blob) :
  fs st !! without_leading_slash viz_path = Some b ->
  embed_error w (without_leading_slash viz_path) = None ->
  add_visualizations w i (viz_path :: rest) ops st
  = add_visualizations w (S i) rest
      (ops ++ [PdfCaption ("Visualization " +:+ pretty (S i));
               PdfImage (without_leading_slash viz_path)])%list st.
Proof.
  intros Hfile Herr. cbn [add_visualizations].
  rewrite (bind_return _ _ _ _ _ (path_exists_present _ _)).
  rewrite (present_in_file _ _ _ Hfile). cbn [negb].
  rewrite Herr. now rewrite <- app_assoc.
Qed.

(** The loop over the paths always runs to its end and leaves the state
    alone; what it adds is what the specification words. *)
Lemma add_visualizations_captions (st : state) (paths : list string) :
  forall (i : nat) (ops : list pdf_op),
    add_visualizations w i paths ops st
    = (Return (ops ++ captioned_images w (present_in w st) i paths)%list,
       st).
Proof.
  induction paths as [|viz_path rest IH]; intros i ops.
  - cbn. now rewrite app_nil_r.
  - cbn [add_visualizations captioned_images].
    rewrite (bind_return _ _ _ _ _ (path_exists_present _ _)).
    destruct (present_in w st (without_leading_slash viz_path));
      cbn [negb].
    + destruct (embed_error w (without_leading_slash viz_path));
        rewrite IH, <- !app_assoc; reflexivity.
    + now rewrite IH.
Qed.


End Report.



(** ** How computations end *)

Section Outcomes.

Variable w : World.

Lemma keeps_store_ret {A} (a : A) : keeps_store (ret a).
Proof. intros s. reflexivity. Qed.

Lemma keeps_store_raise {A} (e : exn) : keeps_store (@raise A e).
Proof. intros s. reflexivity. Qed.

Lemma keeps_store_abort {A} : keeps_store (@abort A).
Proof. intros s. reflexivity. Qed.

Lemma keeps_store_lift {A} (r : result A) : keeps_store (lift r).
Proof. intros s. reflexivity. Qed.

Lemma keeps_store_bind {A B} (m : M A) (f : A -> M B) :
  keeps_store m -> (forall a, keeps_store (f a)) -> keeps_store (bind m f).
Proof.
  intros Hm Hf s. unfold bind. specialize (Hm s).
  destruct (m s) as [[a|e|] s']; cbn in *; [|exact Hm..].
  now rewrite (Hf a s').
Qed.

Lemma keeps_store_try {A} (m : M A) (h : exn -> M A) :
  keeps_store m -> (forall e, keeps_store (h e)) ->
  keeps_store (try_except m h).
Proof.
  intros Hm Hh s. unfold try_except. specialize (Hm s).
  destruct (m s) as [[a|e|] s']; cbn in *; [exact Hm| |exact Hm].
  now rewrite (Hh e s').
Qed.

Lemma keeps_store_uuid4 : keeps_store (uuid4 w).
Proof. intros s. reflexivity. Qed.

Lemma keeps_store_write_file path b : keeps_store (write_file path b).
Proof. intros s. reflexivity. Qed.

Lemma keeps_store_append_doc path ps : keeps_store (append_doc path ps).
Proof. intros s. reflexivity. Qed.

Lemma keeps_store_guard_error o : keeps_store (guard_error o).
Proof. intros s. destruct o; reflexivity. Qed.

Lemma keeps_store_get_store : keeps_store get_store.
Proof. intros s. reflexivity. Qed.

Lemma keeps_store_of_sum {A} (r : string + A) : keeps_store (of_sum r).
Proof. intros s. now destruct r. Qed.

Lemma keeps_store_path_exists path : keeps_store (path_exists w path).
Proof. intros s. reflexivity. Qed.

Lemma keeps_store_read_file path : keeps_store (read_file path).
Proof. intros s. unfold read_file. now destruct (fs s !! path). Qed.

Lemma keeps_store_stored_entry file_id : keeps_store (stored_entry file_id).
Proof.
  intros s. unfold stored_entry. now destruct (data_store s !! file_id).
Qed.

Lemma keeps_store_analysis_failed {A} e : keeps_store (@analysis_failed A e).
Proof. intros s. now destruct e. Qed.

Lemma raises_plain_ret {A} (a : A) : raises_plain (ret a).
Proof. intros s e H. discriminate. Qed.

Lemma raises_plain_raise {A} (msg : string) :
  raises_plain (@raise A (Exception msg)).
Proof. intros s e H. injection H as <-. eauto. Qed.

Lemma raises_plain_abort {A} : raises_plain (@abort A).
Proof. intros s e H. discriminate. Qed.

Lemma raises_plain_lift {A} (r : result A) :
  plain_result r -> raises_plain (lift r).
Proof. intros Hr s. exact Hr. Qed.

Lemma raises_plain_bind {A B} (m : M A) (f : A -> M B) :
  raises_plain m -> (forall a, raises_plain (f a)) ->
  raises_plain (bind m f).
Proof.
  intros Hm Hf s. unfold bind. specialize (Hm s).
  destruct (m s) as [[a|e|] s']; cbn in *; [apply Hf| |].
  - intros e' H. injection H as <-. now apply Hm.
  - intros e' H. discriminate.
Qed.

Lemma raises_plain_try {A} (m : M A) (h : exn -> M A) :
  (forall e, raises_plain (h e)) -> raises_plain (try_except m h).
Proof.
  intros Hh s. unfold try_except.
  destruct (m s) as [[a|e|] s']; cbn;
    [intros e H; discriminate | apply Hh | intros e H; discriminate].
Qed.

Lemma raises_plain_uuid4 : raises_plain (uuid4 w).
Proof. intros s e H. discriminate. Qed.

Lemma raises_plain_write_file path b : raises_plain (write_file path b).
Proof. intros s e H. discriminate. Qed.

Lemma raises_plain_append_doc path ps : raises_plain (append_doc path ps).
Proof. intros s e H. discriminate. Qed.

Lemma raises_plain_guard_error o : raises_plain (guard_error o).
Proof.
  destruct o; [apply raises_plain_raise | apply raises_plain_ret].
Qed.

Lemma raises_plain_of_sum {A} (r : string + A) : raises_plain (of_sum r).
Proof.
  destruct r; [apply raises_plain_raise | apply raises_plain_ret].
Qed.

Lemma raises_plain_set_dashboard file_id url :
  raises_plain (set_dashboard file_id url).
Proof.
  intros s e. unfold set_dashboard.
  destruct (data_store s !! file_id); cbn; intros H;
    [discriminate | injection H as <-; eauto].
Qed.

Lemma raises_plain_stored_entry file_id :
  raises_plain (stored_entry file_id).
Proof.
  intros s e. unfold stored_entry.
  destruct (data_store s !! file_id); cbn; intros H;
    [discriminate | injection H as <-; eauto].
Qed.

Lemma raises_plain_set_df file_id df : raises_plain (set_df file_id df).
Proof.
  intros s e. unfold set_df.
  destruct (data_store s !! file_id); cbn; intros H; discriminate.
Qed.

Lemma plain_py_in k j : plain_result (py_in k j).
Proof.
  intros e. destruct j; cbn; intros H;
    first [discriminate | injection H as <-; eauto].
Qed.

Lemma plain_py_getitem j k : plain_result (py_getitem j k).
Proof.
  intros e. destruct j; cbn; try destruct (assoc k kv); intros H;
    first [discriminate | injection H as <-; eauto].
Qed.

Lemma plain_py_setitem j k v : plain_result (py_setitem j k v).
Proof.
  intros e. destruct j; cbn; intros H;
    first [discriminate | injection H as <-; eauto].
Qed.

Lemma plain_py_get j k d : plain_result (py_get j k d).
Proof.
  intros e. destruct j; cbn; intros H;
    first [discriminate | injection H as <-; eauto].
Qed.

Lemma plain_iterate j : plain_result (iterate w j).
Proof.
  intros e. destruct j; cbn; intros H;
    first [discriminate | injection H as <-; eauto].
Qed.

Lemma never_raises_ret {A} (a : A) : never_raises (ret a).
Proof. intros s. now exists a. Qed.

Lemma never_raises_bind {A B} (m : M A) (f : A -> M B) :
  never_raises m -> (forall a, never_raises (f a)) ->
  never_raises (bind m f).
Proof.
  intros Hm Hf s. unfold bind. destruct (Hm s) as [a Ha].
  destruct (m s) as [[a'|e|] s']; cbn in *;
    [apply Hf | discriminate | discriminate].
Qed.

(** A [try] whose body is never cut short and whose handler returns,
    returns. *)
Lemma never_raises_try {A} (m : M A) (h : exn -> M A) :
  comes_back m -> (forall e, never_raises (h e)) ->
  never_raises (try_except m h).
Proof.
  intros Hm Hh s. unfold try_except. specialize (Hm s).
  destruct (m s) as [[a|e|] s']; cbn in *;
    [now exists a | apply Hh | congruence].
Qed.

Lemma never_raises_back {A} (m : M A) : never_raises m -> comes_back m.
Proof. intros Hm s. destruct (Hm s) as [a ->]. discriminate. Qed.

Lemma comes_back_ret {A} (a : A) : comes_back (ret a).
Proof. intros s. discriminate. Qed.

Lemma comes_back_raise {A} (e : exn) : comes_back (@raise A e).
Proof. intros s. discriminate. Qed.

Lemma comes_back_lift {A} (r : result A) :
  r <> Aborted -> comes_back (lift r).
Proof. intros Hr s. exact Hr. Qed.

Lemma comes_back_bind {A B} (m : M A) (f : A -> M B) :
  comes_back m -> (forall a, comes_back (f a)) -> comes_back (bind m f).
Proof.
  intros Hm Hf s. unfold bind. specialize (Hm s).
  destruct (m s) as [[a|e|] s']; cbn in *;
    [apply Hf | discriminate | congruence].
Qed.

Lemma comes_back_try {A} (m : M A) (h : exn -> M A) :
  comes_back m -> (forall e, comes_back (h e)) ->
  comes_back (try_except m h).
Proof.
  intros Hm Hh s. unfold try_except. specialize (Hm s).
  destruct (m s) as [[a|e|] s']; cbn in *;
    [discriminate | apply Hh | congruence].
Qed.

Lemma comes_back_uuid4 : comes_back (uuid4 w).
Proof. intros s. discriminate. Qed.

Lemma comes_back_write_file path b : comes_back (write_file path b).
Proof. intros s. discriminate. Qed.

Lemma comes_back_append_doc path ps : comes_back (append_doc path ps).
Proof. intros s. discriminate. Qed.

Lemma comes_back_guard_error o : comes_back (guard_error o).
Proof. intros s. destruct o; discriminate. Qed.

Lemma comes_back_of_sum {A} (r : string + A) : comes_back (of_sum r).
Proof. intros s. destruct r; discriminate. Qed.

Lemma comes_back_stored_entry file_id : comes_back (stored_entry file_id).
Proof.
  intros s. unfold stored_entry.
  destruct (data_store s !! file_id); discriminate.
Qed.

Lemma comes_back_set_df file_id df : comes_back (set_df file_id df).
Proof.
  intros s. unfold set_df. destruct (data_store s !! file_id); discriminate.
Qed.

Lemma comes_back_set_dashboard file_id url :
  comes_back (set_dashboard file_id url).
Proof.
  intros s. unfold set_dashboard.
  destruct (data_store s !! file_id); discriminate.
Qed.

Lemma back_py_in k j : py_in k j <> Aborted.
Proof. destruct j; discriminate. Qed.

Lemma back_py_getitem j k : py_getitem j k <> Aborted.
Proof. destruct j; cbn; try destruct (assoc k kv); discriminate. Qed.

Lemma back_py_setitem j k v : py_setitem j k v <> Aborted.
Proof. destruct j; discriminate. Qed.

Lemma back_py_get j k d : py_get j k d <> Aborted.
Proof. destruct j; discriminate. Qed.

Lemma back_iterate j : iterate w j <> Aborted.
Proof. destruct j; discriminate. Qed.

End Outcomes.

Create HintDb outcome.

#[local] Hint Resolve keeps_store_ret keeps_store_raise keeps_store_abort
  keeps_store_lift
  keeps_store_uuid4 keeps_store_write_file keeps_store_append_doc
  keeps_store_guard_error keeps_store_get_store keeps_store_of_sum
  keeps_store_path_exists keeps_store_read_file keeps_store_stored_entry
  keeps_store_analysis_failed
  raises_plain_ret raises_plain_raise raises_plain_abort
  raises_plain_uuid4 raises_plain_write_file raises_plain_append_doc
  raises_plain_guard_error raises_plain_of_sum raises_plain_set_dashboard
  raises_plain_stored_entry raises_plain_set_df
  plain_py_in plain_py_getitem plain_py_setitem plain_py_get plain_iterate
  never_raises_ret
  comes_back_ret comes_back_raise comes_back_uuid4 comes_back_write_file
  comes_back_append_doc comes_back_guard_error comes_back_of_sum
  comes_back_stored_entry comes_back_set_df comes_back_set_dashboard
  back_py_in back_py_getitem back_py_setitem back_py_get back_iterate
  : outcome.

(** One step through the structure of a computation. *)
Ltac outcome_step :=
  match goal with
  | |- keeps_store (bind _ _) => apply keeps_store_bind; [|intros ?]
  | |- keeps_store (try_except _ _) => apply keeps_store_try; [|intros ?]
  | |- raises_plain (bind _ _) => apply raises_plain_bind; [|intros ?]
  | |- raises_plain (try_except _ _) => apply raises_plain_try; intros ?
  | |- raises_plain (lift _) => apply raises_plain_lift
  | |- never_raises (bind _ _) => apply never_raises_bind; [|intros ?]
  | |- never_raises (try_except _ _) => apply never_raises_try; [|intros ?]
  | |- comes_back (bind _ _) => apply comes_back_bind; [|intros ?]
  | |- comes_back (try_except _ _) => apply comes_back_try; [|intros ?]
  | |- comes_back (lift _) => apply comes_back_lift
  | |- keeps_store (match ?x with _ => _ end) => destruct x
  | |- raises_plain (match ?x with _ => _ end) => destruct x
  | |- never_raises (match ?x with _ => _ end) => destruct x
  | |- comes_back (match ?x with _ => _ end) => destruct x
  | |- _ => solve [eauto with outcome]
  end.

Ltac outcome := repeat outcome_step.

Section HandlerOutcomes.

Variable w : World.

Lemma raises_plain_truthy_item j k : raises_plain (truthy_item j k).
Proof. unfold truthy_item. outcome. Qed.

Lemma keeps_store_truthy_item j k : keeps_store (truthy_item j k).
Proof. unfold truthy_item. outcome. Qed.

Lemma comes_back_truthy_item j k : comes_back (truthy_item j k).
Proof. unfold truthy_item. outcome. Qed.

Lemma keeps_store_stored_df file_id : keeps_store (stored_df file_id).
Proof. unfold stored_df. outcome. Qed.

Lemma raises_plain_stored_df file_id : raises_plain (stored_df file_id).
Proof. unfold stored_df. outcome. Qed.

Lemma comes_back_stored_df file_id : comes_back (stored_df file_id).
Proof. unfold stored_df. outcome. Qed.

Hint Resolve raises_plain_truthy_item keeps_store_truthy_item
  comes_back_truthy_item keeps_store_stored_df raises_plain_stored_df
  comes_back_stored_df : outcome.

Lemma raises_plain_run_code file_id code :
  raises_plain (run_code w file_id code).
Proof. unfold run_code. outcome. Qed.

Hint Resolve raises_plain_run_code : outcome.

Lemma raises_plain_run_visualization_code file_id ai code :
  raises_plain (run_visualization_code w file_id ai code).
Proof. unfold run_visualization_code, attempt. outcome. Qed.

Lemma keeps_store_effective_code df i viz_item :
  keeps_store (effective_code df i viz_item).
Proof.
  unfold effective_code, read_code, substitute_default. outcome.
Qed.

Lemma raises_plain_effective_code df i viz_item :
  raises_plain (effective_code df i viz_item).
Proof.
  unfold effective_code, read_code, substitute_default. outcome.
Qed.

Lemma comes_back_effective_code df i viz_item :
  comes_back (effective_code df i viz_item).
Proof.
  unfold effective_code, read_code, substitute_default. outcome.
Qed.

Lemma keeps_store_save_image vis_id img :
  keeps_store (save_image w vis_id img).
Proof. unfold save_image. outcome. Qed.

Lemma comes_back_save_image vis_id img :
  comes_back (save_image w vis_id img).
Proof. unfold save_image. outcome. Qed.

Lemma keeps_store_fallback_image df : keeps_store (fallback_image df).
Proof. unfold fallback_image. outcome. Qed.

Lemma comes_back_fallback_image df : comes_back (fallback_image df).
Proof. unfold fallback_image. outcome. Qed.

Lemma comes_back_slot_title i viz_item : comes_back (slot_title i viz_item).
Proof. unfold slot_title. outcome. Qed.

Hint Resolve keeps_store_effective_code raises_plain_effective_code
  comes_back_effective_code keeps_store_save_image comes_back_save_image
  keeps_store_fallback_image comes_back_fallback_image
  comes_back_slot_title : outcome.

Lemma keeps_store_error_tile i e paths :
  keeps_store (error_tile w i e paths).
Proof. unfold error_tile. outcome. Qed.

Lemma never_raises_error_tile i e paths :
  never_raises (error_tile w i e paths).
Proof. unfold error_tile. outcome. Qed.

Lemma raises_plain_error_tile i e paths :
  raises_plain (error_tile w i e paths).
Proof. unfold error_tile. outcome. Qed.

Hint Resolve keeps_store_error_tile never_raises_error_tile
  raises_plain_error_tile : outcome.

Lemma raises_plain_process_slot file_id i viz_item paths :
  raises_plain (process_slot w file_id i viz_item paths).
Proof. unfold process_slot. outcome. Qed.

Hint Resolve raises_plain_process_slot : outcome.

Lemma raises_plain_process_slots file_id items :
  forall i paths, raises_plain (process_slots w file_id i items paths).
Proof.
  induction items as [|viz_item rest IH]; intros i paths;
    cbn [process_slots]; outcome.
Qed.

Lemma keeps_store_default_visualizations df :
  keeps_store (default_visualizations w df).
Proof. unfold default_visualizations. outcome. Qed.

Lemma never_raises_default_visualizations df :
  never_raises (default_visualizations w df).
Proof. unfold default_visualizations. outcome. Qed.

Lemma raises_plain_default_visualizations df :
  raises_plain (default_visualizations w df).
Proof. unfold default_visualizations. outcome. Qed.

Lemma raises_plain_requested_visualizations ai :
  raises_plain (requested_visualizations ai).
Proof. unfold requested_visualizations. outcome. Qed.

Lemma keeps_store_requested_visualizations ai :
  keeps_store (requested_visualizations ai).
Proof. unfold requested_visualizations. outcome. Qed.

Lemma raises_plain_write_dashboard path data ai paths :
  raises_plain (write_dashboard w path data ai paths).
Proof.
  unfold write_dashboard, section, preprocessing_results,
    preprocessing_warning.
  outcome.
Qed.

Lemma keeps_store_write_dashboard path data ai paths :
  keeps_store (write_dashboard w path data ai paths).
Proof.
  unfold write_dashboard, section, preprocessing_results,
    preprocessing_warning.
  outcome.
Qed.

Lemma keeps_store_call_completion prompt :
  keeps_store (call_completion w prompt).
Proof. unfold call_completion. outcome. Qed.

Hint Resolve raises_plain_process_slots
  keeps_store_default_visualizations never_raises_default_visualizations
  raises_plain_default_visualizations
  raises_plain_requested_visualizations
  keeps_store_requested_visualizations raises_plain_write_dashboard
  keeps_store_write_dashboard keeps_store_call_completion : outcome.

(** After the completion call, auto-analyze raises ordinary exceptions
    only. *)
Lemma raises_plain_build_dashboard file_id ai :
  raises_plain (build_dashboard w file_id ai).
Proof. unfold build_dashboard. outcome. Qed.

(** After the completion call, analyze raises ordinary exceptions only. *)
Lemma raises_plain_after_completion (file_id : string) (ai : json) :
  raises_plain
    (code <- truthy_item ai "visualization_code" ;;
     r <- (match code with
           | Some code => run_visualization_code w file_id ai code
           | None => ret (None, ai)
           end) ;;
     let '(visualization_path, ai_analysis) := r in
     analysis <- lift (py_get ai_analysis "analysis"
                              (JStr "No analysis provided")) ;;
     insights <- lift (py_get ai_analysis "insights"
                              (JStr "No insights provided")) ;;
     ret {| an_analysis := analysis; an_insights := insights;
            an_visualization := visualization_path |}).
Proof.
  pose proof raises_plain_run_visualization_code. outcome.
Qed.

(** A status error leaving [call_completion ;; k] is the one
    [raise_for_status] raised on a reply outside 2xx. *)
Lemma status_error_origin {A} (prompt : string) (k : json -> M A)
    (st st' : state) (status : Z) (text : string) :
  (forall ai, raises_plain (k ai)) ->
  bind (call_completion w prompt) k st
  = (Raise (HTTPStatusError status text), st') ->
  post w prompt = Response status text /\ is_success status = false.
Proof.
  intros Hk. unfold bind, call_completion.
  destruct (post w prompt) as [msg|status0 body]; [discriminate|].
  destruct (is_success status0) eqn:Hs.
  - unfold of_sum. destruct (decode w body) as [msg|ai]; [discriminate|].
    unfold ret. intros H.
    destruct (Hk ai st (HTTPStatusError status text)) as [msg Hmsg];
      [now rewrite H | discriminate].
  - unfold raise. intros H. injection H as -> -> _. now split.
Qed.

(** The closing [except] clauses of both handlers. *)
Lemma analysis_failed_cases {A} (m : M A) (st : state) (e : exn) :
  fst (try_except m analysis_failed st) = Raise e ->
  (exists status text st',
      m st = (Raise (HTTPStatusError status text), st')
      /\ e = HTTPException status ("Error from OpenRouter API: " +:+ text))
  \/ (exists detail,
         e = HTTPException 500 ("Error analyzing data: " +:+ detail)).
Proof.
  unfold try_except.
  destruct (m st) as [[a|e0|] s']; [discriminate| |discriminate].
  destruct e0 as [sc d|sc t|msg]; cbn; intros H; injection H as <-.
  - right. eauto.
  - left. eauto.
  - right. eauto.
Qed.

End HandlerOutcomes.

(** ** Failures of the completion service *)



#[local] Hint Resolve raises_plain_truthy_item keeps_store_truthy_item
  comes_back_truthy_item keeps_store_stored_df raises_plain_stored_df
  comes_back_stored_df raises_plain_run_code
  raises_plain_run_visualization_code
  keeps_store_effective_code raises_plain_effective_code
  comes_back_effective_code keeps_store_save_image comes_back_save_image
  keeps_store_fallback_image comes_back_fallback_image
  comes_back_slot_title keeps_store_error_tile never_raises_error_tile
  raises_plain_error_tile raises_plain_process_slot
  raises_plain_process_slots
  keeps_store_default_visualizations never_raises_default_visualizations
  raises_plain_default_visualizations
  raises_plain_requested_visualizations
  keeps_store_requested_visualizations raises_plain_write_dashboard
  keeps_store_write_dashboard keeps_store_call_completion : outcome.

(** ** Generated code that comes back *)

Section ComesBack.

Variable w : World.
Hypothesis Hback : exec_comes_back w.

Lemma comes_back_run_code file_id code :
  comes_back (run_code w file_id code).
Proof.
  unfold run_code. apply comes_back_bind; [outcome|]. intros df.
  apply comes_back_bind; [outcome|]. intros _.
  specialize (Hback code df).
  destruct (fst (exec w code df)); [outcome | outcome | congruence].
Qed.

Hint Resolve comes_back_run_code : outcome.

Lemma comes_back_render_slot file_id i viz_item paths :
  comes_back (render_slot w file_id i viz_item paths).
Proof. unfold render_slot. outcome. Qed.

Hint Resolve comes_back_render_slot : outcome.

Lemma never_raises_process_slot file_id i viz_item paths :
  never_raises (process_slot w file_id i viz_item paths).
Proof. unfold process_slot. outcome. Qed.

Hint Resolve never_raises_process_slot : outcome.

Lemma never_raises_process_slots file_id items :
  forall i paths, never_raises (process_slots w file_id i items paths).
Proof.
  induction items as [|viz_item rest IH]; intros i paths;
    cbn [process_slots]; outcome.
Qed.

End ComesBack.

(** ** What the handlers do to the data store *)

Section Confined.

Variable w : World.
Variable R : entry -> entry -> Prop.
Variable file_id : string.
Hypothesis R_refl : forall e, R e e.
Hypothesis R_trans : forall e1 e2 e3, R e1 e2 -> R e2 e3 -> R e1 e3.
Hypothesis R_exec :
  forall e code, R e (with_df e (snd (exec w code (e_df e)))).
Hypothesis R_dashboard : forall e url, R e (with_dashboard e url).

Lemma changed_within_refl s : changed_within R file_id s s.
Proof. repeat split; eauto. Qed.

Lemma changed_within_trans s1 s2 s3 :
  changed_within R file_id s1 s2 -> changed_within R file_id s2 s3 ->
  changed_within R file_id s1 s3.
Proof.
  intros (Ho1 & Hn1 & Hs1) (Ho2 & Hn2 & Hs2). split; [|split].
  - intros other Hne. now rewrite Ho2, Ho1.
  - auto.
  - intros e He. destruct (Hs1 e He) as (e' & He' & HR).
    destruct (Hs2 e' He') as (e'' & He'' & HR'). eauto.
Qed.

Lemma changed_within_same s s' :
  data_store s' = data_store s -> changed_within R file_id s s'.
Proof.
  intros H. unfold changed_within. rewrite H. apply changed_within_refl.
Qed.

Lemma changed_within_insert s e e' :
  data_store s !! file_id = Some e -> R e e' ->
  changed_within R file_id s
    {| data_store := <[file_id := e']> (data_store s);
       fs := fs s; uuid_ctr := uuid_ctr s |}.
Proof.
  intros He HR. split; [|split]; cbn [data_store].
  - intros other Hne. now apply lookup_insert_ne.
  - congruence.
  - intros e0 He0. rewrite He in He0. injection He0 as <-.
    exists e'. split; [apply lookup_insert_eq | exact HR].
Qed.

Lemma confined_keeps {A} (m : M A) :
  keeps_store m -> confined R file_id m.
Proof. intros Hm s. apply changed_within_same, Hm. Qed.

Lemma confined_bind {A B} (m : M A) (f : A -> M B) :
  confined R file_id m -> (forall a, confined R file_id (f a)) ->
  confined R file_id (bind m f).
Proof.
  intros Hm Hf s. unfold bind. specialize (Hm s).
  destruct (m s) as [[a|e|] s']; cbn [snd] in *; [|exact Hm..].
  eapply changed_within_trans; [exact Hm | apply Hf].
Qed.

Lemma confined_try {A} (m : M A) (h : exn -> M A) :
  confined R file_id m -> (forall e, confined R file_id (h e)) ->
  confined R file_id (try_except m h).
Proof.
  intros Hm Hh s. unfold try_except. specialize (Hm s).
  destruct (m s) as [[a|e|] s']; cbn [snd] in *; [exact Hm| |exact Hm].
  eapply changed_within_trans; [exact Hm | apply Hh].
Qed.

(** Running generated code changes the dataframe of the entry it was
    handed and nothing else. *)
Lemma confined_run_code code : confined R file_id (run_code w file_id code).
Proof.
  intros s. unfold run_code, stored_df, stored_entry, set_df, bind, ret.
  destruct (data_store s !! file_id) as [e|] eqn:He;
    [|apply changed_within_refl].
  rewrite He.
  destruct (fst (exec w code (e_df e))); cbn [snd raise abort ret];
    apply (changed_within_insert _ e); auto.
Qed.

Lemma confined_set_dashboard url :
  confined R file_id (set_dashboard file_id url).
Proof.
  intros s. unfold set_dashboard.
  destruct (data_store s !! file_id) as [e|] eqn:He; cbn [snd];
    [apply (changed_within_insert _ e); auto | apply changed_within_refl].
Qed.

(** One step through the structure of a computation. *)
Ltac confine_step :=
  match goal with
  | |- confined _ _ _ => apply confined_keeps; solve [outcome]
  | |- confined _ _ (run_code _ _ _) => apply confined_run_code
  | |- confined _ _ (set_dashboard _ _) => apply confined_set_dashboard
  | |- confined _ _ (bind _ _) => apply confined_bind; [|intros ?]
  | |- confined _ _ (try_except _ _) => apply confined_try; [|intros ?]
  | |- confined _ _ (match ?x with _ => _ end) => destruct x
  | |- _ => solve [eauto with outcome]
  end.

Ltac confine := repeat confine_step.

Lemma confined_render_slot i viz_item paths :
  confined R file_id (render_slot w file_id i viz_item paths).
Proof. unfold render_slot. confine. Qed.

Lemma confined_process_slot i viz_item paths :
  confined R file_id (process_slot w file_id i viz_item paths).
Proof.
  unfold process_slot. apply confined_try; [apply confined_render_slot|].
  intros e. confine.
Qed.

Lemma confined_process_slots items :
  forall i paths,
    confined R file_id (process_slots w file_id i items paths).
Proof.
  induction items as [|viz_item rest IH]; intros i paths;
    cbn [process_slots]; [confine|].
  apply confined_bind; [apply confined_process_slot | intros ?; apply IH].
Qed.

Lemma confined_run_visualization_code ai code :
  confined R file_id (run_visualization_code w file_id ai code).
Proof. unfold run_visualization_code, attempt. confine. Qed.

Lemma confined_analyze_data query :
  confined R file_id (analyze_data w file_id query).
Proof.
  unfold analyze_data.
  apply confined_bind; [confine|]. intros store.
  destruct (store !! file_id) as [data|]; [|confine].
  apply confined_try; [|intros e; confine].
  apply confined_bind; [confine|]. intros ai.
  apply confined_bind; [confine|]. intros code.
  apply confined_bind; [|intros ?; confine].
  destruct code; [apply confined_run_visualization_code | confine].
Qed.

Lemma confined_build_dashboard ai :
  confined R file_id (build_dashboard w file_id ai).
Proof.
  unfold build_dashboard.
  apply confined_bind; [confine|]. intros items.
  apply confined_bind; [apply confined_process_slots|]. intros paths.
  confine.
Qed.

Lemma confined_auto_analyze_data :
  confined R file_id (auto_analyze_data w file_id).
Proof.
  unfold auto_analyze_data.
  apply confined_bind; [confine|]. intros store.
  destruct (store !! file_id) as [data|]; [|confine].
  apply confined_try; [|intros e; confine].
  apply confined_bind; [confine|]. intros ai.
  apply confined_build_dashboard.
Qed.

End Confined.

(** ** Canned defaults of the first two slots *)

Section Canned.

Variable w : World.

Lemma assoc_set_same {A} (k : string) (v : A) (kv : list (string * A)) :
  assoc k (assoc_set k v kv) = Some v.
Proof.
  induction kv as [|[k0 v0] kv IH]; cbn [assoc_set assoc].
  - now rewrite String.eqb_refl.
  - destruct (String.eqb k0 k) eqn:E0; cbn [assoc].
    + now rewrite String.eqb_refl.
    + now rewrite E0.
Qed.

Lemma assoc_set_other {A} (k k' : string) (v : A) (kv : list (string * A)) :
  String.eqb k' k = false -> assoc k (assoc_set k' v kv) = assoc k kv.
Proof.
  intros Hne. induction kv as [|[k0 v0] kv IH]; cbn [assoc_set assoc].
  - now rewrite Hne.
  - destruct (String.eqb k0 k') eqn:E0; cbn [assoc].
    + apply String.eqb_eq in E0 as ->. now rewrite Hne.
    + now rewrite IH.
Qed.

Lemma uuid4_draws (s : state) :
  uuid4 w s
  = (Return (uuid w (uuid_ctr s)),
     {| data_store := data_store s; fs := fs s;
        uuid_ctr := S (uuid_ctr s) |}).
Proof. reflexivity. Qed.

Lemma save_image_saved (vis_id : string) (img : image) (s : state) :
  plot_error w img = None ->
  save_image w vis_id img s
  = (Return tt,
     {| data_store := data_store s;
        fs := <[output_path vis_id "png" := Image img]> (fs s);
        uuid_ctr := uuid_ctr s |}).
Proof. intros H. unfold save_image, bind. now rewrite H. Qed.

Lemma run_code_done (file_id code : string) (s : state) (e : entry)
    (ns_plt ns_fig : bool) (df' : DataFrame) :
  data_store s !! file_id = Some e ->
  exec w code (e_df e) = (ExecDone ns_plt ns_fig, df') ->
  run_code w file_id code s
  = (Return (ns_plt, ns_fig),
     {| data_store := <[file_id := with_df e df']> (data_store s);
        fs := fs s; uuid_ctr := uuid_ctr s |}).
Proof.
  intros He Hexec. unfold run_code.
  rewrite (bind_return _ _ _ _ _ (stored_df_present _ _ _ He)).
  rewrite Hexec. cbn [fst snd]. unfold bind, set_df. now rewrite He.
Qed.

(** What the handler reads as the code of an object slot whose code is
    absent or short, and that it takes the substitution branch. *)
Lemma read_code_object (kv : list (string * json)) (st : state) :
  code_absent_or_short kv = true ->
  read_code (JObj kv) st = (Return (supplied_code kv), st)
  /\ too_short (supplied_code kv) = true.
Proof.
  unfold code_absent_or_short, supplied_code, read_code, truthy_item,
    bind, lift, ret, py_in, py_getitem.
  destruct (assoc "code" kv) as [v|]; [|split; reflexivity].
  destruct v as [| b | n | c | l | kv']; cbn [truthy negb orb];
    try (intros H; rewrite ?orb_false_r in H;
         apply negb_true_iff in H; rewrite H; split; reflexivity).
  - intros _. split; reflexivity.
  - destruct (Py.truthy c) eqn:Hc; cbn [negb orb];
      [|intros _; split; reflexivity].
    intros Hlen. split; [reflexivity | exact Hlen].
Qed.

Lemma effective_code_object (df : DataFrame) (i : nat)
    (kv : list (string * json)) (st : state) :
  code_absent_or_short kv = true ->
  effective_code df i (JObj kv) st
  = substitute_default df i (JObj kv) (supplied_code kv) st.
Proof.
  intros H. destruct (read_code_object kv st H) as [Hread Hshort].
  unfold effective_code. rewrite (bind_return _ _ _ _ _ Hread).
  now rewrite Hshort.
Qed.

Lemma contains_plt_hist (col : string) :
  Py.contains "plt" (hist_code col) = true.
Proof. vm_compute. reflexivity. Qed.

Lemma contains_histplot (col : string) :
  Py.contains "sns.histplot(df['" (hist_code col) = true.
Proof. vm_compute. reflexivity. Qed.

Lemma contains_plt_heatmap : Py.contains "plt" heatmap_code = true.
Proof. vm_compute. reflexivity. Qed.

(** A slot whose code was replaced by a canned one that draws with
    matplotlib is listed under the canned title and description. *)
Lemma render_canned (file_id code title description : string) (i : nat)
    (kv : list (string * json)) (paths : list viz) (st : state)
    (data : entry) (ns_fig : bool) (df' : DataFrame) :
  data_store st !! file_id = Some data ->
  effective_code (e_df data) i (JObj kv) st
  = (Return (Some code,
             JObj (assoc_set "description" (JStr description)
                     (assoc_set "title" (JStr title) kv))), st) ->
  Py.contains "plt" code = true ->
  exec w code (e_df data) = (ExecDone true ns_fig, df') ->
  plot_error w (ImgMatplotlib code) = None ->
  exists st',
    process_slot w file_id i (JObj kv) paths st
    = (Return (paths ++ [{| v_path := output_url (uuid w (uuid_ctr st)) "png";
                           v_title := JStr title;
                           v_description := JStr description |}])%list,
       st')
    /\ fs st' !! output_path (uuid w (uuid_ctr st)) "png"
       = Some (Image (ImgMatplotlib code)).
Proof.
  intros Hdata Hcode Hplt Hexec Hplot.
  unfold process_slot.
  eexists. split.
  - apply try_return. unfold render_slot.
    rewrite (bind_return _ _ _ _ _ (stored_df_present _ _ _ Hdata)).
    rewrite (bind_return _ _ _ _ _ Hcode). cbv beta iota.
    rewrite (bind_return _ _ _ _ _
               (run_code_done _ _ _ _ _ _ _ Hdata Hexec)).
    cbv beta iota.
    rewrite (bind_return _ _ _ _ _ (uuid4_draws _)).
    rewrite Hplt. cbn [andb uuid_ctr].
    rewrite (bind_return _ _ _ _ _ (save_image_saved _ _ _ Hplot)).
    unfold slot_title, bind, lift, ret, py_get.
    rewrite (assoc_set_other "title" "description") by reflexivity.
    rewrite !assoc_set_same. reflexivity.
  - cbn [fs]. apply lookup_insert_eq.
Qed.


End Canned.



(** ** The dashboard *)

Section Dashboard.

Variable w : World.

Lemma append_doc_with_doc st path d ps :
  append_doc path ps (with_doc st path d)
  = (Return tt, with_doc st path (d ++ ps)).
Proof.
  unfold append_doc, with_doc. cbn [fs data_store uuid_ctr].
  now rewrite lookup_insert_eq, insert_insert_eq.
Qed.

Lemma section_object kv heading key placeholder st :
  section w (JObj kv) heading key placeholder st
  = (Return (rendered w kv heading key placeholder), st).
Proof. reflexivity. Qed.

(** A well-formed results block is written to its end. *)
Lemma preprocessing_results_well_formed kv path st d :
  well_formed_info kv = true ->
  preprocessing_results w path (JObj kv) (with_doc st path d)
  = (Return tt, with_doc st path (d ++ results_pieces w kv)).
Proof.
  unfold well_formed_info, results_pieces, preprocessing_results, py_in.
  destruct (assoc "preprocessed_data_info" kv) as [info|] eqn:Hinfo.
  2:{ intros _. erewrite bind_return by reflexivity. cbv beta iota.
      now rewrite app_nil_r. }
  destruct info as [| | | | |info]; try discriminate.
  destruct (assoc "original_shape" info) as [original|] eqn:Ho;
    [|discriminate].
  destruct (assoc "preprocessed_shape" info) as [preprocessed|] eqn:Hp;
    [|discriminate].
  destruct (assoc "changes" info) as [changes|] eqn:Hc; [|discriminate].
  intros Hwf.
  erewrite bind_return by reflexivity. cbv beta iota.
  erewrite bind_return
    by (unfold lift, py_getitem; rewrite Hinfo; reflexivity).
  erewrite bind_return
    by (unfold lift, py_getitem; rewrite Ho; reflexivity).
  erewrite bind_return
    by (unfold lift, py_getitem; rewrite Hp; reflexivity).
  erewrite bind_return by apply append_doc_with_doc.
  erewrite bind_return
    by (unfold lift, py_getitem; rewrite Hc; reflexivity).
  destruct (truthy changes) eqn:Ht.
  - assert (exists items, iterate w changes = Return items) as [items Hit].
    { destruct changes; cbn in Hwf; try discriminate;
        cbn [iterate]; eauto. }
    rewrite Hit.
    erewrite bind_return by reflexivity.
    now rewrite append_doc_with_doc, <- app_assoc.
  - now rewrite append_doc_with_doc, <- app_assoc.
Qed.

Lemma preprocessing_warning_object kv path st d :
  preprocessing_warning w path (JObj kv) (with_doc st path d)
  = (Return tt, with_doc st path (d ++ warning_pieces w kv)).
Proof.
  unfold preprocessing_warning, warning_pieces, bind, lift, py_in,
    py_getitem.
  destruct (assoc "preprocessing_error" kv) as [msg|].
  - apply append_doc_with_doc.
  - now rewrite app_nil_r.
Qed.

(** The document [write_dashboard] leaves for an object reply. *)
Lemma write_dashboard_object st path data kv paths :
  write_error w path = None ->
  well_formed_info kv = true ->
  write_dashboard w path data (JObj kv) paths st
  = (Return tt, with_doc st path (object_dashboard w data kv paths)).
Proof.
  intros Hw Hwf. unfold write_dashboard.
  rewrite (bind_return _ _ st st tt) by now rewrite Hw.
  rewrite (bind_return _ _ st (with_doc st path []) tt) by reflexivity.
  do 4 (erewrite bind_return by apply section_object).
  do 2 (erewrite bind_return by apply append_doc_with_doc).
  erewrite bind_return by apply section_object.
  erewrite bind_return by apply append_doc_with_doc.
  erewrite bind_return by now apply preprocessing_results_well_formed.
  erewrite bind_return by apply preprocessing_warning_object.
  erewrite bind_return by apply section_object.
  rewrite append_doc_with_doc. unfold object_dashboard.
  now rewrite <- !app_assoc.
Qed.

(** Each declared card is in the document, and its placeholder has no
    line break for [format_content] to rewrite. *)
Lemma declared_sections_rendered data kv paths :
  Forall (fun t =>
            In (rendered w kv (fst (fst t)) (snd (fst t)) (snd t))
               (object_dashboard w data kv paths)
            /\ br (snd t) = snd t)
         declared_sections.
Proof.
  unfold declared_sections, object_dashboard.
  repeat (apply List.Forall_cons;
          [split; [cbn [fst snd] | reflexivity] |]);
    try apply List.Forall_nil.
  - apply in_or_app. left. right. left. reflexivity.
  - apply in_or_app. left. do 2 right. left. reflexivity.
  - apply in_or_app. left. do 3 right. left. reflexivity.
  - apply in_or_app. left. do 4 right. left. reflexivity.
  - do 2 (apply in_or_app; right). apply in_or_app. left. left.
    reflexivity.
  - do 5 (apply in_or_app; right). left. reflexivity.
Qed.


End Dashboard.



(** ** The fallback chain of auto-analyze *)

Section Fallback.

Variable w : World.

Lemma requested_visualizations_object kv st :
  exists items,
    requested_visualizations (JObj kv) st = (Return items, st).
Proof.
  unfold requested_visualizations, bind, lift, py_in, py_getitem.
  destruct (assoc "visualizations" kv); eexists; reflexivity.
Qed.

Lemma requested_visualizations_none kv st :
  assoc "visualizations" kv = None ->
  requested_visualizations (JObj kv) st = (Return [], st).
Proof.
  intros H. unfold requested_visualizations, bind, lift, py_in.
  now rewrite H.
Qed.

Lemma default_visualizations_drawn df st :
  (forall img, plot_error w img = None) ->
  exists v vs st',
    default_visualizations w df st = (Return (v :: vs), st').
Proof.
  intros Hplot.
  unfold default_visualizations, try_except, bind, save_image, uuid4,
    write_file.
  rewrite Hplot. cbn [guard_error ret].
  destruct (1 <? length (numeric_cols df))%nat.
  - rewrite Hplot. cbn [guard_error ret]. eauto.
  - eauto.
Qed.

(** Without a numeric column the default block is the overview panel
    alone. *)
Lemma default_visualizations_overview df st :
  numeric_cols df = [] ->
  plot_error w (ImgOverview df) = None ->
  default_visualizations w df st
  = (Return [{| v_path := output_url (uuid w (uuid_ctr st)) "png";
                v_title := JStr "Data Overview";
                v_description :=
                  JStr "A summary of key characteristics in the dataset" |}],
     {| data_store := data_store st;
        fs := <[output_path (uuid w (uuid_ctr st)) "png"
                := Image (ImgOverview df)]> (fs st);
        uuid_ctr := S (uuid_ctr st) |}).
Proof.
  intros Hnum Hplot.
  unfold default_visualizations, try_except, bind, save_image, uuid4,
    write_file.
  rewrite Hplot, Hnum. reflexivity.
Qed.

Lemma set_dashboard_present file_id url st data :
  data_store st !! file_id = Some data ->
  set_dashboard file_id url st
  = (Return tt,
     {| data_store := <[file_id := with_dashboard data url]> (data_store st);
        fs := fs st; uuid_ctr := uuid_ctr st |}).
Proof. intros H. unfold set_dashboard. now rewrite H. Qed.

(** What is left of [build_dashboard] once the list of visualizations is
    settled. *)
Lemma dashboard_is_written st file_id data kv paths :
  data_store st !! file_id = Some data ->
  well_formed_info kv = true ->
  (forall path, write_error w path = None) ->
  exists reply st',
    (dashboard_id <- uuid4 w ;;
     data <- stored_entry file_id ;;
     write_dashboard w (output_path dashboard_id "html") data (JObj kv)
                     paths ;;;
     set_dashboard file_id (output_url dashboard_id "html") ;;;
     let field k := lift (py_get (JObj kv) k (JStr EmptyString)) in
     data_quality <- field "data_quality" ;;
     statistics <- field "statistics" ;;
     correlations <- field "correlations" ;;
     patterns <- field "patterns" ;;
     insights <- field "insights" ;;
     ret {| au_dashboard_url := output_url dashboard_id "html";
            au_data_quality := data_quality;
            au_statistics := statistics;
            au_correlations := correlations;
            au_patterns := patterns;
            au_insights := insights;
            au_visualizations := paths |}) st
    = (Return reply, st')
    /\ au_visualizations reply = paths
    /\ forall p,
         p <> output_path (uuid w (uuid_ctr st)) "html" ->
         fs st' !! p = fs st !! p.
Proof.
  intros Hdata Hwf Hwrite.
  rewrite (bind_return _ _ _ _ _ (uuid4_draws w _)).
  erewrite bind_return
    by (apply stored_entry_present; cbn [data_store]; exact Hdata).
  erewrite bind_return by (apply write_dashboard_object; auto).
  erewrite bind_return
    by (apply (set_dashboard_present _ _ _ data); cbn [with_doc data_store];
        exact Hdata).
  eexists _, _. split; [reflexivity|]. split; [reflexivity|].
  intros p Hp. cbn [fs with_doc]. now rewrite lookup_insert_ne.
Qed.

(** With an object reply and a writable dashboard, everything after the
    completion call returns; with a working plotting back end at least
    one image is listed. *)
Lemma build_dashboard_object st file_id data kv :
  data_store st !! file_id = Some data ->
  well_formed_info kv = true ->
  (forall path, write_error w path = None) ->
  exec_comes_back w ->
  exists reply st',
    build_dashboard w file_id (JObj kv) st = (Return reply, st')
    /\ ((forall img, plot_error w img = None) ->
        au_visualizations reply <> []).
Proof.
  intros Hdata Hwf Hwrite Hback. unfold build_dashboard.
  destruct (requested_visualizations_object kv st) as [items Hitems].
  rewrite (bind_return _ _ _ _ _ Hitems).
  destruct (never_raises_process_slots w Hback file_id items 0%nat [] st)
    as [paths Hpaths].
  pose proof (confined_process_slots w (fun _ _ => True) file_id
                (fun _ => I) (fun _ _ _ _ _ => I) (fun _ _ => I)
                items 0%nat [] st) as (_ & _ & Hkept).
  destruct (process_slots w file_id 0 items [] st) as [r s1] eqn:Hslots.
  cbn [fst snd] in Hpaths, Hkept. subst r.
  destruct (Hkept data Hdata) as (data1 & Hdata1 & _).
  rewrite (bind_return _ _ _ _ _ Hslots).
  rewrite (bind_return _ _ _ _ _ (stored_df_present _ _ _ Hdata1)).
  assert (exists paths2 s2,
             (match paths with
              | [] => default_visualizations w (e_df data1)
              | _ => ret paths
              end) s1 = (Return paths2, s2)
             /\ data_store s2 = data_store s1
             /\ ((forall img, plot_error w img = None) -> paths2 <> []))
    as (paths2 & s2 & Hdef & Hs2 & Hne).
  { destruct paths as [|v vs].
    - destruct (never_raises_default_visualizations w (e_df data1) s1)
        as [paths2 Hret].
      pose proof (keeps_store_default_visualizations w (e_df data1) s1)
        as Hkeep.
      destruct (default_visualizations w (e_df data1) s1) as [r s2] eqn:Hd.
      cbn [fst snd] in Hret, Hkeep. subst r.
      exists paths2, s2. repeat split; [exact Hkeep|].
      intros Hplot.
      destruct (default_visualizations_drawn (e_df data1) s1 Hplot)
        as (v & vs & s2' & Hdrawn).
      congruence.
    - exists (v :: vs), s1. repeat split. discriminate. }
  rewrite (bind_return _ _ _ _ _ Hdef).
  rewrite <- Hs2 in Hdata1.
  destruct (dashboard_is_written s2 file_id data1 kv paths2 Hdata1 Hwf
              Hwrite) as (reply & st' & Hrest & Hlist & _).
  exists reply, st'. split; [exact Hrest|]. now rewrite Hlist.
Qed.

Lemma effective_code_supplied (df : DataFrame) (i : nat)
    (kv : list (string * json)) (code : string) (st : state) :
  assoc "code" kv = Some (JStr code) ->
  Py.truthy code = true ->
  numeric_cols df = [] ->
  effective_code df i (JObj kv) st = (Return (Some code, JObj kv), st).
Proof.
  intros Hcode Htruthy Hnum.
  unfold effective_code, read_code, truthy_item, bind, lift, ret, py_in,
    py_getitem.
  rewrite Hcode. cbn [truthy]. rewrite Htruthy.
  destruct (too_short (Some code)); [|reflexivity].
  unfold substitute_default. rewrite Hnum.
  destruct i as [|[|i]]; reflexivity.
Qed.


End Fallback.



(** * Further properties of the handlers *)

(** ** Upload *)

Section UploadMore.

Variable w : World.

Lemma split_not_empty (sep : ascii) (s : string) : Py.split sep s <> [].
Proof.
  destruct s as [|c s]; cbn [Py.split]; [discriminate|].
  destruct (Ascii.eqb sep c); [discriminate|].
  destruct (Py.split sep s); discriminate.
Qed.

Lemma split_app_separator (sep : ascii) (base rest : string) :
  Py.split sep (base +:+ String sep rest)
  = (Py.split sep base ++ Py.split sep rest)%list.
Proof.
  induction base as [|c base IH].
  - change (EmptyString +:+ String sep rest) with (String sep rest).
    cbn [Py.split]. now rewrite Ascii.eqb_refl.
  - change (String c base +:+ String sep rest)
      with (String c (base +:+ String sep rest)).
    cbn [Py.split].
    destruct (Ascii.eqb sep c); rewrite IH; [reflexivity|].
    pose proof (split_not_empty sep base) as Hne.
    destruct (Py.split sep base); [congruence | reflexivity].
Qed.

Lemma last_item_app (l1 l2 : list string) :
  l2 <> [] -> Py.last_item (l1 ++ l2) = Py.last_item l2.
Proof.
  intros Hne. unfold Py.last_item.
  induction l1 as [|x l1 IH]; [reflexivity|].
  cbn [app]. rewrite <- IH. cbn [List.last].
  destruct (l1 ++ l2)%list eqn:E; [|reflexivity].
  apply app_eq_nil in E as [_ ->]. congruence.
Qed.

(** The extension is read after the last dot only: whatever precedes a
    dot does not count, and a suffix without a dot is the extension, in
    lower case. *)
Theorem extension_ignores_text_before_a_dot (base rest : string) :
  file_extension (base +:+ "." +:+ rest) = file_extension rest
  /\ (Py.contains "." rest = false ->
      file_extension (base +:+ "." +:+ rest) = Py.lower rest).
Proof.
  assert (file_extension (base +:+ "." +:+ rest) = file_extension rest)
    as Hext.
  { unfold file_extension.
    change ("." +:+ rest) with (String "." rest).
    rewrite split_app_separator, last_item_app; [reflexivity|].
    apply split_not_empty. }
  split; [exact Hext|]. intros Hdot. rewrite Hext.
  now apply extension_of_dotless.
Qed.

(** An accepted file that parses is stored under the identifier drawn for
    it, with the parsed columns in their order, the entries of other
    identifiers are untouched and the raw bytes are on disk, whatever the
    request is answered. The answer is the reply with that identifier,
    the filename, the columns and the preview rows when the preview can
    be rendered as JSON; when a preview cell is a NaN the request is
    answered 500, the dataset staying stored. *)
Theorem upload_stores_dataset
    (st : state) (filename content : string) (df : DataFrame) :
  Py.elem (file_extension filename) accepted_extensions = true ->
  read_table w (file_extension filename) content = inr df ->
  exists st',
    snd (upload_file w (Some filename) content st) = st'
    /\ data_store st' !! uuid w (uuid_ctr st)
       = Some {| e_filename := filename;
                 e_path := UPLOAD_DIR +:+ "/" +:+ uuid w (uuid_ctr st)
                           +:+ "." +:+ file_extension filename;
                 e_columns := columns df; e_df := df;
                 e_dashboard := None |}
    /\ (forall other, other <> uuid w (uuid_ctr st) ->
          data_store st' !! other = data_store st !! other)
    /\ fs st' !! (UPLOAD_DIR +:+ "/" +:+ uuid w (uuid_ctr st) +:+ "."
                  +:+ file_extension filename)
       = Some (Upload content)
    /\ (json_compliant (head w df) = true ->
        fst (upload_file w (Some filename) content st)
        = Return {| up_file_id := uuid w (uuid_ctr st);
                    up_filename := filename;
                    up_columns := columns df;
                    up_preview := head w df |})
    /\ (json_compliant (head w df) = false ->
        fst (upload_file w (Some filename) content st)
        = Raise (Exception
                   "Out of range float values are not JSON compliant")
        /\ status_of (fst (upload_file w (Some filename) content st))
           = 500).
Proof.
  intros Hext Hparse.
  assert (upload_file w (Some filename) content st
          = send_reply {| up_file_id := uuid w (uuid_ctr st);
                          up_filename := filename;
                          up_columns := columns df;
                          up_preview := head w df |}
              {| data_store :=
                   <[uuid w (uuid_ctr st)
                     := {| e_filename := filename;
                           e_path := UPLOAD_DIR +:+ "/"
                                     +:+ uuid w (uuid_ctr st)
                                     +:+ "." +:+ file_extension filename;
                           e_columns := columns df; e_df := df;
                           e_dashboard := None |}]> (data_store st);
                 fs := <[UPLOAD_DIR +:+ "/" +:+ uuid w (uuid_ctr st)
                         +:+ "." +:+ file_extension filename
                         := Upload content]> (fs st);
                 uuid_ctr := S (uuid_ctr st) |}) as Hrun.
  { unfold upload_file, opt_truthy.
    rewrite (accepted_not_empty _ Hext). cbn [negb form_value].
    rewrite Hext. cbn [negb].
    unfold bind, try_except, uuid4, write_file, of_sum, set_entry, ret.
    cbn [uuid_ctr fs data_store]. now rewrite Hparse. }
  rewrite Hrun. unfold send_reply. cbn [up_preview].
  eexists. split; [reflexivity|].
  destruct (json_compliant (head w df)); cbn [snd fst data_store fs ret raise];
    (split; [apply lookup_insert_eq|]);
    (split; [intros other Hother; now apply lookup_insert_ne|]);
    (split; [apply lookup_insert_eq|]);
    split; intros H; try discriminate H; try reflexivity.
  split; reflexivity.
Qed.

End UploadMore.

Lemma extension_ignores_text_before_a_dot_witness :
  Py.contains "." "XLSX" = false
  /\ file_extension ("report.2024" +:+ "." +:+ "XLSX") = Py.lower "XLSX".
Proof.
  split; [reflexivity|].
  apply (extension_ignores_text_before_a_dot "report.2024" "XLSX").
  reflexivity.
Defined.

Lemma upload_stores_dataset_witness :
  json_compliant (head world_with_gaps names_df) = false
  /\ exists st',
       snd (upload_file world_with_gaps (Some "people.csv") "name,city"
              empty_state) = st'
       /\ data_store st' !! uuid ok_world 0
          = Some {| e_filename := "people.csv";
                    e_path := UPLOAD_DIR +:+ "/" +:+ uuid ok_world 0
                              +:+ "." +:+ file_extension "people.csv";
                    e_columns := columns names_df; e_df := names_df;
                    e_dashboard := None |}
       /\ status_of (fst (upload_file world_with_gaps (Some "people.csv")
                            "name,city" empty_state)) = 500.
Proof.
  split; [reflexivity|].
  destruct (upload_stores_dataset world_with_gaps empty_state "people.csv"
              "name,city" names_df eq_refl eq_refl)
    as (st' & Hst & Hstored & _ & _ & _ & Hnan).
  exists st'. split; [exact Hst|]. split; [exact Hstored|].
  apply Hnan. reflexivity.
Defined.

(** ** Declarative charts, continued *)

Section VisualizeMore.

Variable w : World.

Lemma served_name (id : string) :
  OUTPUT_DIR +:+ "/" +:+ (id +:+ ".png") = output_path id "png".
Proof. reflexivity. Qed.

Lemma build_figure_supported
    (viz_type x_column : string) (y_column color_by : option string)
    (kind : chart) :
  chart_of viz_type = Some kind ->
  (kind = Line \/ kind = Scatter -> opt_truthy y_column = true) ->
  build_figure viz_type x_column y_column color_by
  = Return (ImgChart kind x_column
              (match kind with
               | Histogram => None
               | _ => if opt_truthy y_column then y_column else None
               end)
              color_by).
Proof.
  intros Hkind Hy. unfold build_figure. rewrite Hkind.
  destruct kind; try (rewrite Hy by tauto; cbn [negb]);
    try destruct (opt_truthy y_column); reflexivity.
Qed.

(** A supported chart over existing columns (with its Y column when it is
    a line or a scatter chart) whose drawing succeeds is saved under a new
    identifier; the URL returned is that identifier's, the data store is
    as before, and [get_output_file] serves the chart asked for: of the
    given type, over [x_column], coloured by [color_by], and against
    [y_column] unless the chart is a histogram or no Y column was
    given. *)
Theorem visualize_image_is_served
    (st : state) (file_id viz_type x_column : string)
    (y_column color_by : option string) (data : entry) (kind : chart) :
  data_store st !! file_id = Some data ->
  Py.elem x_column (columns (e_df data)) = true ->
  column_missing y_column (e_df data) = false ->
  column_missing color_by (e_df data) = false ->
  chart_of viz_type = Some kind ->
  (kind = Line \/ kind = Scatter -> opt_truthy y_column = true) ->
  plot_error w (ImgChart kind x_column
                  (match kind with
                   | Histogram => None
                   | _ => if opt_truthy y_column then y_column else None
                   end)
                  color_by) = None ->
  exists st',
    create_visualization w file_id viz_type x_column y_column color_by st
    = (Return (output_url (uuid w (uuid_ctr st)) "png"), st')
    /\ data_store st' = data_store st
    /\ get_output_file w (uuid w (uuid_ctr st) +:+ ".png") st'
       = (Return (Image (ImgChart kind x_column
                           (match kind with
                            | Histogram => None
                            | _ => if opt_truthy y_column then y_column
                                   else None
                            end)
                           color_by)), st').
Proof.
  intros Hdata Hx Hy Hc Hkind Hline Hplot.
  pose proof (build_figure_supported viz_type x_column y_column color_by
                kind Hkind Hline) as Hfig.
  unfold create_visualization, bind at 1, get_store.
  rewrite Hdata. cbn [e_df]. rewrite Hx, Hy, Hc. cbn [negb].
  unfold try_except, bind, uuid4, lift. rewrite Hfig, Hplot.
  cbn [guard_error ret write_file].
  eexists. split; [reflexivity|]. split; [reflexivity|].
  unfold get_output_file, bind, path_exists, read_file.
  rewrite served_name. cbn [fs]. rewrite lookup_insert_eq. cbn [negb fs].
  now rewrite lookup_insert_eq.
Qed.

(** When drawing or saving the chart raises, the answer is status 500
    with the exception text, no file is written and the store is as
    before. *)
Theorem visualize_plot_failure_writes_nothing
    (st : state) (file_id viz_type x_column msg : string)
    (y_column color_by : option string) (data : entry) (fig : image) :
  data_store st !! file_id = Some data ->
  Py.elem x_column (columns (e_df data)) = true ->
  column_missing y_column (e_df data) = false ->
  column_missing color_by (e_df data) = false ->
  build_figure viz_type x_column y_column color_by = Return fig ->
  plot_error w fig = Some msg ->
  exists st',
    create_visualization w file_id viz_type x_column y_column color_by st
    = (Raise (HTTPException 500 ("Error creating visualization: " +:+ msg)),
       st')
    /\ data_store st' = data_store st /\ fs st' = fs st.
Proof.
  intros Hdata Hx Hy Hc Hfig Hplot.
  unfold create_visualization, bind at 1, get_store.
  rewrite Hdata. cbn [e_df]. rewrite Hx, Hy, Hc. cbn [negb].
  unfold try_except, bind, uuid4, lift. rewrite Hfig, Hplot.
  cbn [guard_error raise str_exn]. eexists. repeat split.
Qed.

(** An empty [y_column] field is the same request as no [y_column]. *)
Theorem visualize_empty_y_is_no_y
    (st : state) (file_id viz_type x_column : string)
    (color_by : option string) :
  create_visualization w file_id viz_type x_column (Some EmptyString)
                       color_by st
  = create_visualization w file_id viz_type x_column None color_by st.
Proof.
  assert (build_figure viz_type x_column (Some EmptyString) color_by
          = build_figure viz_type x_column None color_by) as Hfig.
  { unfold build_figure, opt_truthy, Py.truthy.
    destruct (chart_of viz_type) as [[]|]; reflexivity. }
  unfold create_visualization, bind, get_store.
  destruct (data_store st !! file_id) as [data|]; [|reflexivity].
  cbn [column_missing opt_truthy Py.truthy andb form_value].
  now rewrite Hfig.
Qed.

(** A [y_column] or a [color_by] that is given but is no column of the
    dataset is refused with status 400 naming it, before anything is
    drawn. *)
Theorem visualize_unknown_optional_column
    (st : state) (file_id viz_type x_column : string)
    (y_column color_by : option string) (data : entry) :
  data_store st !! file_id = Some data ->
  Py.elem x_column (columns (e_df data)) = true ->
  (column_missing y_column (e_df data) = true ->
   create_visualization w file_id viz_type x_column y_column color_by st
   = (Raise (HTTPException 400
               ("Column " +:+ form_value y_column
                +:+ " not found in data")), st))
  /\ (column_missing y_column (e_df data) = false ->
      column_missing color_by (e_df data) = true ->
      create_visualization w file_id viz_type x_column y_column color_by st
      = (Raise (HTTPException 400
                  ("Column " +:+ form_value color_by
                   +:+ " not found in data")), st)).
Proof.
  intros Hdata Hx.
  split; [intros Hy | intros Hy Hc];
    unfold create_visualization, bind, get_store;
    rewrite Hdata; cbn [e_df]; rewrite Hx, Hy; cbn [negb];
    [|rewrite Hc]; reflexivity.
Qed.

End VisualizeMore.

Lemma visualize_image_is_served_witness :
  exists st',
    create_visualization ok_world "d1" "scatter" "units" (Some "price")
                         (Some "region") (state_with sales_df)
    = (Return (output_url (uuid ok_world 0) "png"), st')
    /\ data_store st' = data_store (state_with sales_df)
    /\ get_output_file ok_world (uuid ok_world 0 +:+ ".png") st'
       = (Return (Image (ImgChart Scatter "units" (Some "price")
                           (Some "region"))), st').
Proof.
  apply (visualize_image_is_served ok_world (state_with sales_df) "d1"
           "scatter" "units" (Some "price") (Some "region")
           (entry_of "d1.csv" sales_df) Scatter); reflexivity.
Defined.

Lemma visualize_plot_failure_writes_nothing_witness :
  exists st',
    create_visualization world_without_plots "d1" "bar" "region" None None
                         (state_with sales_df)
    = (Raise (HTTPException 500
                ("Error creating visualization: " +:+ "no display")), st')
    /\ data_store st' = data_store (state_with sales_df)
    /\ fs st' = fs (state_with sales_df).
Proof.
  apply (visualize_plot_failure_writes_nothing world_without_plots
           (state_with sales_df) "d1" "bar" "region" "no display" None None
           (entry_of "d1.csv" sales_df) (ImgChart Bar "region" None None));
    reflexivity.
Defined.

Lemma visualize_unknown_optional_column_witness :
  column_missing (Some "weight") (e_df (entry_of "d1.csv" sales_df)) = true
  /\ create_visualization ok_world "d1" "bar" "region" (Some "weight") None
       (state_with sales_df)
     = (Raise (HTTPException 400
                 ("Column " +:+ form_value (Some "weight")
                  +:+ " not found in data")), state_with sales_df).
Proof.
  split; [reflexivity|].
  destruct (visualize_unknown_optional_column ok_world
              (state_with sales_df) "d1" "bar" "region" (Some "weight") None
              (entry_of "d1.csv" sales_df) eq_refl eq_refl) as [Hy _].
  apply Hy. reflexivity.
Defined.

(** ** Assertions through the handler monad *)

Section Triples.

Lemma triple_ret {A} (P : state -> Prop) (a : A) Q E :
  (forall s, P s -> Q a s) -> triple P (ret a) Q E.
Proof. intros H s Hs. now apply H. Qed.

Lemma triple_raise {A} (P : state -> Prop) (e : exn)
    (Q : A -> state -> Prop) (E : state -> Prop) :
  (forall s, P s -> E s) -> triple P (raise e) Q E.
Proof. intros H s Hs. now apply H. Qed.

Lemma triple_bind {A B} (P : state -> Prop) (m : M A)
    (R : A -> state -> Prop) (f : A -> M B) Q E :
  triple P m R E -> (forall a, triple (R a) (f a) Q E) ->
  triple P (bind m f) Q E.
Proof.
  intros Hm Hf s Hs. unfold bind. specialize (Hm s Hs).
  destruct (m s) as [[a|e|] s']; [now apply Hf | exact Hm | exact Hm].
Qed.

(** A [try] whose body, when it is cut short, is left in a state the
    conclusion accepts. *)
Lemma triple_try {A} (P : state -> Prop) (m : M A) (h : exn -> M A)
    Q (R E : state -> Prop) :
  triple P m Q R -> (forall s, R s -> E s) ->
  (forall e, triple R (h e) Q E) ->
  triple P (try_except m h) Q E.
Proof.
  intros Hm HR Hh s Hs. unfold try_except. specialize (Hm s Hs).
  destruct (m s) as [[a|e|] s']; [exact Hm | now apply Hh | now apply HR].
Qed.

Lemma triple_weaken {A} (P P' : state -> Prop) (m : M A)
    (Q Q' : A -> state -> Prop) (E E' : state -> Prop) :
  (forall s, P' s -> P s) -> (forall a s, Q a s -> Q' a s) ->
  (forall s, E s -> E' s) -> triple P m Q E -> triple P' m Q' E'.
Proof.
  intros HP HQ HE Hm s Hs. specialize (Hm s (HP s Hs)).
  destruct (m s) as [[a|e|] s']; auto.
Qed.

Lemma triple_any {A} (P : state -> Prop) (m : M A) :
  triple P m (fun _ _ => True) (fun _ => True).
Proof. intros s _. now destruct (m s) as [[a|e|] s']. Qed.

Lemma triple_returns {A} (P : state -> Prop) (m : M A) Q E s a s' :
  triple P m Q E -> P s -> m s = (Return a, s') -> Q a s'.
Proof. intros Hm Hs Heq. specialize (Hm s Hs). now rewrite Heq in Hm. Qed.

End Triples.

(** ** What the handlers do to the data store, handler by handler *)

Section Stores.

Variable w : World.

Lemma keeps_store_add_visualizations paths :
  forall i ops, keeps_store (add_visualizations w i paths ops).
Proof.
  intros i ops s. now rewrite add_visualizations_captions.
Qed.

Hint Resolve keeps_store_add_visualizations : outcome.

Lemma keeps_store_create_visualization file_id viz_type x y c :
  keeps_store (create_visualization w file_id viz_type x y c).
Proof. unfold create_visualization. outcome. Qed.

Lemma keeps_store_generate_report file_id text paths :
  keeps_store (generate_report w file_id text paths).
Proof. unfold generate_report. outcome. Qed.

Lemma same_upload_refl e : same_upload e e.
Proof. repeat split. Qed.

Lemma same_upload_trans e1 e2 e3 :
  same_upload e1 e2 -> same_upload e2 e3 -> same_upload e1 e3.
Proof.
  intros (H1 & H2 & H3) (H1' & H2' & H3'). repeat split; congruence.
Qed.

Lemma same_but_df_refl e : same_but_df e e.
Proof. repeat split. Qed.

Lemma same_but_df_trans e1 e2 e3 :
  same_but_df e1 e2 -> same_but_df e2 e3 -> same_but_df e1 e3.
Proof.
  intros [H1 H2] [H1' H2'].
  split; [eapply same_upload_trans; eauto | congruence].
Qed.

Lemma same_data_refl e : same_data e e.
Proof. repeat split. Qed.

Lemma same_data_trans e1 e2 e3 :
  same_data e1 e2 -> same_data e2 e3 -> same_data e1 e3.
Proof.
  intros [H1 H2] [H1' H2'].
  split; [eapply same_upload_trans; eauto | congruence].
Qed.

Lemma with_df_same (e : entry) : with_df e (e_df e) = e.
Proof. now destruct e. Qed.

(** A store changed at one key within equality is the same store. *)
Lemma changed_within_eq file_id s s' :
  changed_within eq file_id s s' -> data_store s' = data_store s.
Proof.
  intros (Hother & Hnone & Hsome). apply map_eq. intros k.
  destruct (decide (k = file_id)) as [->|Hne]; [|now apply Hother].
  destruct (data_store s !! file_id) as [e|] eqn:He.
  - destruct (Hsome e eq_refl) as (e' & He' & <-). exact He'.
  - now apply Hnone.
Qed.



End Stores.



(** Generated code that adds a column does change the stored dataset:
    after the request, analyze and auto-analyze leave the dataframe with
    the column added. *)
Lemma generated_code_reaches_the_store :
  e_df <$> (data_store
              (snd (analyze_data
                      (world_running add_column_code
                         (JObj [("visualization_code", JStr "df['total'] = 1")]))
                      "d1" "trend?" (state_with names_df))) !! "d1")
  = Some {| df_cols := [("name", DObject); ("city", DObject);
                        ("total", DNumber)];
            df_rows := 3 |}
  /\ e_df <$> (data_store
                 (snd (auto_analyze_data
                         (world_running add_column_code
                            (JObj [("visualizations",
                                    JArr [JObj [("code",
                                                 JStr "df['total'] = 1")]])]))
                         "d1" (state_with names_df))) !! "d1")
     = Some {| df_cols := [("name", DObject); ("city", DObject);
                           ("total", DNumber)];
               df_rows := 3 |}.
Proof. split; vm_compute; reflexivity. Qed.

(** ** Single-query analysis *)

Section AnalyzeMore.

Variable w : World.

Lemma attempt_return {A} (m : M A) (s s' : state) (a : A) :
  m s = (Return a, s') -> attempt m s = (Return (inr a), s').
Proof.
  intros H. unfold attempt. apply try_return.
  now rewrite (bind_return _ _ _ _ _ H).
Qed.

Lemma attempt_raise {A} (m : M A) (s s' : state) (e : exn) :
  m s = (Raise e, s') -> attempt m s = (Return (inl e), s').
Proof.
  intros H. unfold attempt. erewrite try_raise; [reflexivity|].
  now rewrite (bind_raise _ _ _ _ _ H).
Qed.

(** On an object reply, and with generated code that comes back, the
    inner [try] of analyze returns; the reply is as it was, or carries
    the error text under [visualization_error]. *)
Lemma run_visualization_code_object file_id kv code s :
  exec_comes_back w ->
  exists path kv' s',
    run_visualization_code w file_id (JObj kv) code s
    = (Return (path, JObj kv'), s')
    /\ (kv' = kv
        \/ exists msg, kv' = assoc_set "visualization_error" (JStr msg) kv).
Proof.
  intros Hback. unfold run_visualization_code.
  destruct code as [| | |c| |];
    try (unfold bind, lift, ret, py_setitem; eexists _, _, _; split;
         eauto; fail).
  pose proof (comes_back_run_code w Hback file_id c s) as Hcb.
  destruct (run_code w file_id c s) as [[[ns_plt ns_fig]|e|] s1] eqn:Hrun;
    [| |now destruct Hcb].
  - rewrite (bind_return _ _ _ _ _ (attempt_return _ _ _ _ Hrun)).
    unfold bind, lift, ret, py_setitem, uuid4, write_file.
    destruct (Py.contains "plt" c).
    + destruct (plot_error w (ImgMatplotlib c)); eexists _, _, _; eauto.
    + destruct (Py.contains "px" c && ns_fig).
      * destruct (plot_error w (ImgPlotly c)); eexists _, _, _; eauto.
      * eexists _, _, _; eauto.
  - rewrite (bind_return _ _ _ _ _ (attempt_raise _ _ _ _ Hrun)).
    unfold bind, lift, ret, py_setitem. eexists _, _, _; eauto.
Qed.


(** A completion call that fails in transit, or whose body cannot be
    decoded, makes the handler that made it answer 500 with the exception
    text and leave the state as it was: analyze for its call,
    auto-analyze for its own. *)
Theorem completion_breakdown_is_500
    (st : state) (file_id query msg : string) (data : entry) :
  data_store st !! file_id = Some data ->
  ((post w (analyze_prompt w query (e_df data)) = NetworkFailure msg
    \/ exists status body,
         post w (analyze_prompt w query (e_df data)) = Response status body
         /\ is_success status = true /\ decode w body = inl msg) ->
   analyze_data w file_id query st
   = (Raise (HTTPException 500 ("Error analyzing data: " +:+ msg)), st))
  /\ ((post w (auto_prompt w (e_df data)) = NetworkFailure msg
       \/ exists status body,
            post w (auto_prompt w (e_df data)) = Response status body
            /\ is_success status = true /\ decode w body = inl msg) ->
      auto_analyze_data w file_id st
      = (Raise (HTTPException 500 ("Error analyzing data: " +:+ msg)), st)).
Proof.
  intros Hdata. split.
  - intros Han. unfold analyze_data, bind at 1, get_store. rewrite Hdata.
    unfold try_except, bind, call_completion.
    destruct Han as [->|(status & body & -> & -> & Hd)];
      [reflexivity | now rewrite Hd].
  - intros Hauto. unfold auto_analyze_data, bind at 1, get_store.
    rewrite Hdata.
    unfold try_except, bind, call_completion.
    destruct Hauto as [->|(status & body & -> & -> & Hd)];
      [reflexivity | now rewrite Hd].
Qed.

End AnalyzeMore.


Lemma completion_breakdown_is_500_witness :
  post (world_with (NetworkFailure "timed out") (inl "unused"))
       (auto_prompt (world_with (NetworkFailure "timed out") (inl "unused"))
          (e_df (entry_of "d1.csv" names_df)))
  = NetworkFailure "timed out"
  /\ auto_analyze_data
       (world_with (NetworkFailure "timed out") (inl "unused")) "d1"
       (state_with names_df)
     = (Raise (HTTPException 500 ("Error analyzing data: " +:+ "timed out")),
        state_with names_df).
Proof.
  split; [reflexivity|].
  destruct (completion_breakdown_is_500
              (world_with (NetworkFailure "timed out") (inl "unused"))
              (state_with names_df) "d1" "" "timed out"
              (entry_of "d1.csv" names_df) eq_refl) as [_ Hauto].
  apply Hauto. left. reflexivity.
Defined.

(** ** The slots of auto-analyze *)

Section SlotsMore.

Variable w : World.

(** One step of an assertion that only looks at the value returned. *)
Ltac value_step :=
  first
    [ eapply triple_bind; [apply triple_any | intros ?]
    | apply triple_raise; intros; exact I
    | match goal with
      | |- triple _ (match ?x with _ => _ end) _ _ => destruct x
      end ].

Lemma process_slot_extends file_id i viz_item paths :
  triple (fun _ => True) (process_slot w file_id i viz_item paths)
         (fun paths' _ =>
            exists more,
              paths' = (paths ++ more)%list /\ (length more <= 1)%nat)
         (fun _ => True).
Proof.
  unfold process_slot.
  apply triple_try with (R := fun _ => True); [|auto|].
  - unfold render_slot. repeat value_step;
      apply triple_ret; intros ? _;
      first [ exists []; split; [now rewrite app_nil_r | cbn; lia]
            | eexists [_]; split; [reflexivity | cbn; lia] ].
  - intros e. unfold error_tile.
    apply triple_try with (R := fun _ => True); [|auto|].
    + repeat value_step. apply triple_ret. intros ? _.
      eexists [_]. split; [reflexivity | cbn; lia].
    + intros _. apply triple_ret. intros ? _.
      exists []. split; [now rewrite app_nil_r | cbn; lia].
Qed.

(** When the generated code comes back, the loop over the requested
    slots returns; it keeps the visualizations it was given, in order,
    and adds at most one per slot. *)
Theorem slots_add_at_most_one_each
    (file_id : string) (items : list json) :
  exec_comes_back w ->
  forall (i : nat) (paths : list viz) (s : state),
  exists more s',
    process_slots w file_id i items paths s
    = (Return (paths ++ more)%list, s')
    /\ (length more <= length items)%nat.
Proof.
  intros Hback.
  induction items as [|viz_item rest IH]; intros i paths s.
  - exists [], s. cbn. split; [now rewrite app_nil_r | lia].
  - cbn [process_slots]. unfold bind.
    destruct (never_raises_process_slot w Hback file_id i viz_item paths s)
      as [paths1 Hret].
    pose proof (process_slot_extends file_id i viz_item paths s I) as Hext.
    destruct (process_slot w file_id i viz_item paths s) as [r s1].
    cbn in Hret. subst r. destruct Hext as (more1 & -> & Hlen1).
    destruct (IH (S i) (paths ++ more1)%list s1) as (more2 & s2 & -> & Hlen2).
    exists (more1 ++ more2)%list, s2. rewrite app_assoc.
    split; [reflexivity|]. rewrite length_app. cbn [length]. lia.
Qed.

(** Whenever rendering a slot raises and the error text can be drawn, the
    slot is kept as a tile of its own: an image of the error text, titled
    "Error in Visualization" with the slot's number, described by the
    exception text. *)
Theorem failed_slot_becomes_error_tile
    (file_id : string) (i : nat) (viz_item : json) (paths : list viz)
    (s s1 : state) (e : exn) :
  render_slot w file_id i viz_item paths s = (Raise e, s1) ->
  plot_error w (ImgErrorText ("Error generating visualization:"
                              +:+ String Py.newline (str_exn e))) = None ->
  exists s2,
    process_slot w file_id i viz_item paths s
    = (Return (paths ++ [{| v_path := output_url (uuid w (uuid_ctr s1)) "png";
                           v_title := JStr ("Error in Visualization "
                                            +:+ pretty (S i));
                           v_description := JStr ("Error: " +:+ str_exn e) |}])%list,
       s2)
    /\ fs s2 !! output_path (uuid w (uuid_ctr s1)) "png"
       = Some (Image (ImgErrorText ("Error generating visualization:"
                                    +:+ String Py.newline (str_exn e)))).
Proof.
  intros Hraise Hplot. unfold process_slot, try_except at 1.
  rewrite Hraise. unfold error_tile, try_except, bind, uuid4, save_image,
    bind.
  rewrite Hplot. cbn [guard_error ret write_file].
  eexists. split; [reflexivity|]. cbn [fs]. apply lookup_insert_eq.
Qed.

(** When no slot left an image and the plotting calls succeed, the
    default block lists the "Data Overview" panel, followed by the
    "Correlation Heatmap" exactly when the dataset has at least two
    numeric columns; when drawing the overview raises it lists nothing. *)
Theorem default_block_outcomes (df : DataFrame) (s : state) :
  ((forall img, plot_error w img = None) ->
   exists s',
     default_visualizations w df s
     = (Return
          ({| v_path := output_url (uuid w (uuid_ctr s)) "png";
              v_title := JStr "Data Overview";
              v_description :=
                JStr "A summary of key characteristics in the dataset" |}
           :: if (2 <=? length (numeric_cols df))%nat
              then [{| v_path := output_url (uuid w (S (uuid_ctr s))) "png";
                       v_title := JStr "Correlation Heatmap";
                       v_description :=
                         JStr "Heatmap showing correlations between numeric variables" |}]
              else []), s'))
  /\ (forall msg,
        plot_error w (ImgOverview df) = Some msg ->
        exists s', default_visualizations w df s = (Return [], s')).
Proof.
  split.
  - intros Hplot.
    unfold default_visualizations, try_except, bind, save_image, uuid4,
      write_file.
    rewrite Hplot. cbn [guard_error ret uuid_ctr].
    change (2 <=? length (numeric_cols df))%nat
      with (1 <? length (numeric_cols df))%nat.
    destruct (1 <? length (numeric_cols df))%nat.
    + rewrite Hplot. cbn [guard_error ret]. eauto.
    + eauto.
  - intros msg Hplot.
    unfold default_visualizations, try_except, bind, save_image, uuid4,
      bind.
    rewrite Hplot. cbn [guard_error raise ret]. eauto.
Qed.

End SlotsMore.

Lemma slots_add_at_most_one_each_witness :
  exec_comes_back ok_world
  /\ exists more s',
       process_slots ok_world "d1" 0
         [JObj [("code", JStr "plt.plot(df['units'])")]; JNum 3] []
         (state_with sales_df)
       = (Return ([] ++ more)%list, s')
       /\ (length more
           <= length [JObj [("code", JStr "plt.plot(df['units'])")];
                      JNum 3])%nat.
Proof.
  assert (exec_comes_back ok_world) as Hback
    by (intros code df; discriminate).
  split; [exact Hback|].
  apply (slots_add_at_most_one_each ok_world "d1"
           [JObj [("code", JStr "plt.plot(df['units'])")]; JNum 3]
           Hback 0%nat [] (state_with sales_df)).
Defined.

Lemma failed_slot_becomes_error_tile_witness :
  render_slot ok_world "d1" 2 (JNum 3) [] (state_with sales_df)
  = (Raise (Exception "argument of type 'int' is not iterable"),
     state_with sales_df)
  /\ exists s2,
       process_slot ok_world "d1" 2 (JNum 3) [] (state_with sales_df)
       = (Return ([] ++ [{| v_path := output_url (uuid ok_world 0) "png";
                            v_title := JStr ("Error in Visualization "
                                             +:+ pretty 3%nat);
                            v_description :=
                              JStr ("Error: "
                                    +:+ "argument of type 'int' is not iterable") |}])%list,
          s2)
       /\ fs s2 !! output_path (uuid ok_world 0) "png"
          = Some (Image (ImgErrorText
                           ("Error generating visualization:"
                            +:+ String Py.newline
                                  "argument of type 'int' is not iterable"))).
Proof.
  split; [reflexivity|].
  apply (failed_slot_becomes_error_tile ok_world "d1" 2 (JNum 3) []
           (state_with sales_df) (state_with sales_df)
           (Exception "argument of type 'int' is not iterable"));
    reflexivity.
Defined.

Lemma default_block_outcomes_witness :
  exists s',
    default_visualizations ok_world sales_df (state_with sales_df)
    = (Return
         ({| v_path := output_url (uuid ok_world 0) "png";
             v_title := JStr "Data Overview";
             v_description :=
               JStr "A summary of key characteristics in the dataset" |}
          :: if (2 <=? length (numeric_cols sales_df))%nat
             then [{| v_path := output_url (uuid ok_world 1) "png";
                      v_title := JStr "Correlation Heatmap";
                      v_description :=
                        JStr "Heatmap showing correlations between numeric variables" |}]
             else []), s').
Proof.
  apply (default_block_outcomes ok_world sales_df (state_with sales_df)).
  reflexivity.
Defined.

(** ** The files behind the listed visualizations *)

Section Files.

Variable w : World.

Lemma grows_refl s : grows s s.
Proof. intros path H. exact H. Qed.

Lemma grows_trans s1 s2 s3 : grows s1 s2 -> grows s2 s3 -> grows s1 s3.
Proof. intros H12 H23 path H. apply H23, H12, H. Qed.

Lemma grows_insert s path b :
  grows s {| data_store := data_store s;
             fs := <[path := b]> (fs s); uuid_ctr := uuid_ctr s |}.
Proof.
  intros p H. cbn [fs]. destruct (decide (path = p)) as [->|Hne].
  - rewrite lookup_insert_eq. eauto.
  - now rewrite lookup_insert_ne.
Qed.

Lemma keeps_files_ret {A} (a : A) : keeps_files (ret a).
Proof. intros s. apply grows_refl. Qed.

Lemma keeps_files_raise {A} (e : exn) : keeps_files (@raise A e).
Proof. intros s. apply grows_refl. Qed.

Lemma keeps_files_abort {A} : keeps_files (@abort A).
Proof. intros s. apply grows_refl. Qed.

Lemma keeps_files_lift {A} (r : result A) : keeps_files (lift r).
Proof. intros s. apply grows_refl. Qed.

Lemma keeps_files_bind {A B} (m : M A) (f : A -> M B) :
  keeps_files m -> (forall a, keeps_files (f a)) -> keeps_files (bind m f).
Proof.
  intros Hm Hf s. unfold bind. specialize (Hm s).
  destruct (m s) as [[a|e|] s']; cbn [snd] in *; [|exact Hm..].
  eapply grows_trans; [exact Hm | apply Hf].
Qed.

Lemma keeps_files_try {A} (m : M A) (h : exn -> M A) :
  keeps_files m -> (forall e, keeps_files (h e)) ->
  keeps_files (try_except m h).
Proof.
  intros Hm Hh s. unfold try_except. specialize (Hm s).
  destruct (m s) as [[a|e|] s']; cbn [snd] in *; [exact Hm| |exact Hm].
  eapply grows_trans; [exact Hm | apply Hh].
Qed.

Lemma keeps_files_uuid4 : keeps_files (uuid4 w).
Proof. intros s path H. exact H. Qed.

Lemma keeps_files_write_file path b : keeps_files (write_file path b).
Proof. intros s. apply grows_insert. Qed.

Lemma keeps_files_append_doc path ps : keeps_files (append_doc path ps).
Proof. intros s. apply grows_insert. Qed.

Lemma keeps_files_guard_error o : keeps_files (guard_error o).
Proof. intros s. destruct o; apply grows_refl. Qed.

Lemma keeps_files_of_sum {A} (r : string + A) : keeps_files (of_sum r).
Proof. intros s. destruct r; apply grows_refl. Qed.

Lemma keeps_files_get_store : keeps_files get_store.
Proof. intros s. apply grows_refl. Qed.

Lemma keeps_files_set_dashboard file_id url :
  keeps_files (set_dashboard file_id url).
Proof.
  intros s. unfold set_dashboard.
  destruct (data_store s !! file_id); intros path H; exact H.
Qed.

Lemma keeps_files_stored_entry file_id : keeps_files (stored_entry file_id).
Proof.
  intros s. unfold stored_entry.
  destruct (data_store s !! file_id); apply grows_refl.
Qed.

Lemma keeps_files_set_df file_id df : keeps_files (set_df file_id df).
Proof.
  intros s. unfold set_df.
  destruct (data_store s !! file_id); intros path H; exact H.
Qed.

Lemma keeps_files_analysis_failed {A} e : keeps_files (@analysis_failed A e).
Proof. intros s. destruct e; apply grows_refl. Qed.

Create HintDb files.

Hint Resolve keeps_files_ret keeps_files_raise keeps_files_abort
  keeps_files_lift
  keeps_files_uuid4 keeps_files_write_file keeps_files_append_doc
  keeps_files_guard_error keeps_files_of_sum keeps_files_get_store
  keeps_files_set_dashboard keeps_files_stored_entry keeps_files_set_df
  keeps_files_analysis_failed : files.

Ltac files_step :=
  match goal with
  | |- keeps_files (bind _ _) => apply keeps_files_bind; [|intros ?]
  | |- keeps_files (try_except _ _) => apply keeps_files_try; [|intros ?]
  | |- keeps_files (match ?x with _ => _ end) => destruct x
  | |- _ => solve [eauto with files]
  end.

Ltac files := repeat files_step.

Lemma keeps_files_truthy_item j k : keeps_files (truthy_item j k).
Proof. unfold truthy_item. files. Qed.

Lemma keeps_files_stored_df file_id : keeps_files (stored_df file_id).
Proof. unfold stored_df. files. Qed.

Hint Resolve keeps_files_truthy_item keeps_files_stored_df : files.

Lemma keeps_files_run_code file_id code :
  keeps_files (run_code w file_id code).
Proof. unfold run_code. files. Qed.

Lemma keeps_files_effective_code df i viz_item :
  keeps_files (effective_code df i viz_item).
Proof. unfold effective_code, read_code, substitute_default. files. Qed.

Lemma keeps_files_save_image vis_id img :
  keeps_files (save_image w vis_id img).
Proof. unfold save_image. files. Qed.

Lemma keeps_files_fallback_image df : keeps_files (fallback_image df).
Proof. unfold fallback_image. files. Qed.

Lemma keeps_files_slot_title i viz_item : keeps_files (slot_title i viz_item).
Proof. unfold slot_title. files. Qed.

Lemma keeps_files_requested_visualizations ai :
  keeps_files (requested_visualizations ai).
Proof. unfold requested_visualizations. files. Qed.

Lemma keeps_files_write_dashboard path data ai paths :
  keeps_files (write_dashboard w path data ai paths).
Proof.
  unfold write_dashboard, section, preprocessing_results,
    preprocessing_warning.
  files.
Qed.

Lemma keeps_files_call_completion prompt :
  keeps_files (call_completion w prompt).
Proof. unfold call_completion. files. Qed.

Hint Resolve keeps_files_run_code keeps_files_effective_code
  keeps_files_save_image
  keeps_files_fallback_image keeps_files_slot_title
  keeps_files_requested_visualizations keeps_files_write_dashboard
  keeps_files_call_completion : files.

Lemma stable_all_on_disk paths : stable (all_on_disk paths).
Proof.
  intros s s' Hg H. unfold all_on_disk in *.
  eapply List.Forall_impl; [|exact H]. intros v Hv. apply Hg, Hv.
Qed.

(** An assertion that survives added files passes a computation that
    removes none. *)
Lemma triple_grows {A} (P E : state -> Prop) (m : M A) :
  keeps_files m -> stable P -> (forall s, P s -> E s) ->
  triple P m (fun _ => P) E.
Proof.
  intros Hk HP HE s Hs. specialize (Hk s).
  destruct (m s) as [[a|e|] s']; cbn [snd] in Hk;
    [|apply HE..]; now apply (HP s s').
Qed.

(** After [save_image] returned, the image is there. *)
Lemma save_image_on_disk (paths : list viz) (E : state -> Prop)
    (vis_id : string) (img : image) (title description : json) :
  (forall s, all_on_disk paths s -> E s) ->
  triple (all_on_disk paths) (save_image w vis_id img)
         (fun _ =>
            all_on_disk ({| v_path := output_url vis_id "png";
                            v_title := title;
                            v_description := description |} :: paths))
         E.
Proof.
  intros HE s Hs. unfold save_image, bind.
  destruct (plot_error w img) as [msg|]; cbn [guard_error raise ret];
    [now apply HE|].
  unfold write_file. apply List.Forall_cons.
  - unfold on_disk. cbn [v_path fs].
    change (without_leading_slash (output_url vis_id "png"))
      with (output_path vis_id "png").
    rewrite lookup_insert_eq. eauto.
  - eapply stable_all_on_disk; [apply grows_insert | exact Hs].
Qed.

Lemma all_on_disk_listed (paths : list viz) (d v : viz) s :
  v_path v = v_path d ->
  all_on_disk (d :: paths) s -> all_on_disk (paths ++ [v]) s.
Proof.
  intros Hpath H. unfold all_on_disk in *.
  apply List.Forall_app. split; [exact (Forall_inv_tail H)|].
  apply List.Forall_cons; [|apply List.Forall_nil].
  unfold on_disk. rewrite Hpath. exact (Forall_inv H).
Qed.

Lemma all_on_disk_tail (paths : list viz) (d : viz) s :
  all_on_disk (d :: paths) s -> all_on_disk paths s.
Proof. apply Forall_inv_tail. Qed.

Ltac disk_step :=
  match goal with
  | |- triple _ (bind (save_image _ _ _) _) _ _ =>
      eapply triple_bind;
      [apply save_image_on_disk with (title := JNull) (description := JNull);
       intros ? ?; eauto using all_on_disk_tail
      | intros ?]
  | |- triple _ (bind _ _) _ _ =>
      eapply triple_bind;
      [apply triple_grows;
       [files | apply stable_all_on_disk
        | intros ? ?; eauto using all_on_disk_tail]
      | intros ?]
  | |- triple _ (raise _) _ _ =>
      apply triple_raise; intros ? ?; eauto using all_on_disk_tail
  | |- triple _ (match ?x with _ => _ end) _ _ => destruct x
  | |- triple _ (ret _) _ _ =>
      apply triple_ret; intros ? ?;
      first [ assumption
            | eapply all_on_disk_listed; [|eassumption]; reflexivity
            | eapply (all_on_disk_listed []); [|eassumption]; reflexivity ]
  end.

Lemma process_slot_on_disk file_id i viz_item paths :
  triple (all_on_disk paths) (process_slot w file_id i viz_item paths)
         all_on_disk (fun _ => True).
Proof.
  unfold process_slot.
  apply triple_try with (R := all_on_disk paths); [|auto|].
  - unfold render_slot. repeat disk_step.
  - intros e. unfold error_tile.
    apply triple_try with (R := all_on_disk paths); [|auto|].
    + repeat disk_step.
    + intros ?. apply triple_ret. auto.
Qed.

Lemma process_slots_on_disk file_id items :
  forall i paths,
    triple (all_on_disk paths) (process_slots w file_id i items paths)
           all_on_disk (fun _ => True).
Proof.
  induction items as [|viz_item rest IH]; intros i paths;
    cbn [process_slots].
  - apply triple_ret. auto.
  - eapply triple_bind; [apply process_slot_on_disk|].
    intros paths'. apply IH.
Qed.

Lemma default_visualizations_on_disk df :
  triple (all_on_disk []) (default_visualizations w df)
         all_on_disk (fun _ => True).
Proof.
  unfold default_visualizations.
  apply triple_try with (R := fun _ => True);
    [|auto|intros ?; apply triple_ret; intros; apply List.Forall_nil].
  eapply triple_bind;
    [apply triple_grows;
     [files | apply stable_all_on_disk | auto]|].
  intros id1.
  eapply triple_bind;
    [apply save_image_on_disk with (title := JNull) (description := JNull);
     auto|].
  intros ?.
  destruct (1 <? length (numeric_cols df))%nat.
  - eapply triple_try with (E := fun _ => True); [|auto|].
    + eapply triple_bind;
        [apply triple_grows;
         [files | apply stable_all_on_disk | intros s H; exact H]|].
      intros id2.
      eapply triple_bind;
        [apply save_image_on_disk
           with (title := JNull) (description := JNull);
         intros s H; exact H|].
      intros ?. apply triple_ret. intros s H.
      unfold all_on_disk in *.
      pose proof (Forall_inv H) as H2.
      pose proof (Forall_inv (Forall_inv_tail H)) as H1.
      repeat apply List.Forall_cons; [exact H1 | exact H2 | apply List.Forall_nil].
    + intros ?. apply triple_ret. intros s H.
      eapply (all_on_disk_listed []); [|exact H]; reflexivity.
  - apply triple_ret. intros s H.
    eapply (all_on_disk_listed []); [|exact H]; reflexivity.
Qed.

Lemma build_dashboard_on_disk file_id ai :
  triple (fun _ => True) (build_dashboard w file_id ai)
         (fun reply => all_on_disk (au_visualizations reply))
         (fun _ => True).
Proof.
  unfold build_dashboard.
  eapply triple_bind; [apply triple_any|]. intros items.
  eapply triple_bind.
  { eapply triple_weaken; [| | |apply (process_slots_on_disk file_id
                                         items 0%nat [])];
      [intros; apply List.Forall_nil | intros a s H; exact H | auto]. }
  intros paths.
  eapply triple_bind;
    [apply triple_grows; [files | apply stable_all_on_disk | auto]|].
  intros df.
  eapply triple_bind with (R := all_on_disk).
  { destruct paths as [|v vs].
    - eapply triple_weaken; [| | |apply default_visualizations_on_disk];
        auto.
    - apply triple_ret. auto. }
  intros paths2.
  do 9 (eapply triple_bind;
        [apply triple_grows;
         [files | apply stable_all_on_disk | auto]|];
        intros ?).
  apply triple_ret. auto.
Qed.

Lemma analysis_failed_raises {A} (e : exn) (s : state) :
  exists e', @analysis_failed A e s = (Raise e', s).
Proof. destruct e; eexists; reflexivity. Qed.


End Files.


(** ** The dashboard written by auto-analyze *)

Section DashboardMore.

Variable w : World.

Lemma filter_tiles_map (paths : list viz) :
  List.filter is_tile (map (tile w) paths) = map (tile w) paths.
Proof.
  induction paths as [|v vs IH]; [reflexivity|].
  cbn [map List.filter tile is_tile]. now rewrite IH.
Qed.

Lemma filter_tiles_changes (items : list string) :
  List.filter is_tile (map Change items) = [].
Proof. induction items as [|x xs IH]; [reflexivity | exact IH]. Qed.

(** On an object reply the optional results block, when it returns, has
    appended pieces that are no tiles. *)
Lemma preprocessing_results_object kv path st d :
  match preprocessing_results w path (JObj kv) (with_doc st path d) with
  | (Return _, s') =>
      exists extra,
        s' = with_doc st path (d ++ extra)
        /\ List.filter is_tile extra = []
  | _ => True
  end.
Proof.
  unfold preprocessing_results, py_in.
  destruct (assoc "preprocessed_data_info" kv) as [info|] eqn:Hinfo.
  2:{ erewrite bind_return by reflexivity. cbv beta iota.
      exists []. now rewrite app_nil_r. }
  erewrite bind_return by reflexivity. cbv beta iota.
  erewrite bind_return
    by (unfold lift, py_getitem; rewrite Hinfo; reflexivity).
  pose proof (back_py_getitem info "original_shape") as Hb1.
  destruct (py_getitem info "original_shape") as [original|e|];
    [|erewrite bind_raise by reflexivity; exact I|now destruct Hb1].
  erewrite bind_return by reflexivity.
  pose proof (back_py_getitem info "preprocessed_shape") as Hb2.
  destruct (py_getitem info "preprocessed_shape") as [preprocessed|e|];
    [|erewrite bind_raise by reflexivity; exact I|now destruct Hb2].
  erewrite bind_return by reflexivity.
  erewrite bind_return by apply append_doc_with_doc.
  pose proof (back_py_getitem info "changes") as Hb3.
  destruct (py_getitem info "changes") as [changes|e|];
    [|erewrite bind_raise by reflexivity; exact I|now destruct Hb3].
  erewrite bind_return by reflexivity.
  destruct (truthy changes).
  - pose proof (back_iterate w changes) as Hb4.
    destruct (iterate w changes) as [items|e|];
      [|erewrite bind_raise by reflexivity; exact I|now destruct Hb4].
    erewrite bind_return by reflexivity.
    rewrite append_doc_with_doc, <- app_assoc.
    eexists. split; [reflexivity|]. cbn [app List.filter is_tile].
    apply filter_tiles_changes.
  - rewrite append_doc_with_doc, <- app_assoc.
    eexists. split; reflexivity.
Qed.

(** Whenever the dashboard is written to the end, its tiles are those of
    the visualizations it was given, in order. *)
Lemma write_dashboard_returns path data ai paths s s' :
  write_dashboard w path data ai paths s = (Return tt, s') ->
  has_tiles path (map (tile w) paths) s'.
Proof.
  unfold write_dashboard.
  destruct (write_error w path) as [msg|] eqn:Hw;
    [unfold bind at 1; discriminate|].
  rewrite (bind_return _ _ s s tt) by reflexivity.
  rewrite (bind_return _ _ s (with_doc s path []) tt) by reflexivity.
  destruct ai as [| | | | |kv];
    try (unfold bind at 1, section, bind, lift, py_get; discriminate).
  do 4 (erewrite bind_return by apply section_object).
  do 2 (erewrite bind_return by apply append_doc_with_doc).
  erewrite bind_return by apply section_object.
  erewrite bind_return by apply append_doc_with_doc.
  match goal with
  | |- context [bind (preprocessing_results w path (JObj kv)) _
                     (with_doc s path ?d)] =>
      pose proof (preprocessing_results_object kv path s d) as Hshape;
      destruct (preprocessing_results w path (JObj kv) (with_doc s path d))
        as [[[]|e|] s1] eqn:Hres
  end.
  2:{ erewrite bind_raise by exact Hres. discriminate. }
  2:{ erewrite bind_aborted by exact Hres. discriminate. }
  destruct Hshape as (extra & -> & Hextra).
  erewrite bind_return by exact Hres.
  erewrite bind_return by apply preprocessing_warning_object.
  erewrite bind_return by apply section_object.
  rewrite append_doc_with_doc. intros H.
  apply (f_equal snd) in H. cbn [snd] in H. subst s'.
  eexists. split; [apply lookup_insert_eq|].
  rewrite !List.filter_app, Hextra.
  assert (List.filter is_tile (warning_pieces w kv) = []) as ->
    by (unfold warning_pieces;
        now destruct (assoc "preprocessing_error" kv)).
  assert (List.filter is_tile
            (match paths with
             | [] => [NoVisualizations]
             | _ => map (tile w) paths
             end) = map (tile w) paths) as ->
    by (destruct paths; [reflexivity | apply filter_tiles_map]).
  unfold rendered. cbn [List.filter is_tile app].
  now rewrite !app_nil_r.
Qed.

Lemma build_dashboard_document file_id ai :
  triple (fun _ => True) (build_dashboard w file_id ai)
         (fun reply s =>
            has_tiles (without_leading_slash (au_dashboard_url reply))
                      (map (tile w) (au_visualizations reply)) s
            /\ exists e,
                 data_store s !! file_id = Some e
                 /\ e_dashboard e = Some (au_dashboard_url reply))
         (fun _ => True).
Proof.
  unfold build_dashboard.
  eapply triple_bind; [apply triple_any | intros items].
  eapply triple_bind; [apply triple_any | intros paths].
  eapply triple_bind; [apply triple_any | intros df].
  eapply triple_bind; [apply triple_any | intros paths2].
  eapply triple_bind; [apply triple_any | intros dashboard_id].
  eapply triple_bind; [apply triple_any | intros data].
  eapply triple_bind
    with (R := fun _ => has_tiles (output_path dashboard_id "html")
                                  (map (tile w) paths2)).
  { intros s _.
    destruct (write_dashboard w (output_path dashboard_id "html") data ai
                paths2 s) as [[[]|e|] s'] eqn:Hwrite;
      [|exact I|exact I].
    now apply write_dashboard_returns in Hwrite. }
  intros ?.
  eapply triple_bind
    with (R := fun _ s =>
                 has_tiles (output_path dashboard_id "html")
                           (map (tile w) paths2) s
                 /\ exists e,
                      data_store s !! file_id = Some e
                      /\ e_dashboard e
                         = Some (output_url dashboard_id "html")).
  { intros s Htiles. unfold set_dashboard.
    destruct (data_store s !! file_id) as [e|]; [|exact I].
    split; [exact Htiles|]. eexists. split; [apply lookup_insert_eq|].
    reflexivity. }
  intros ?.
  do 5 (eapply triple_bind;
        [intros s Hs;
         match goal with
         | |- match lift ?r s with _ => _ end =>
             unfold lift; destruct r; [exact Hs | exact I | exact I]
         end
        | intros ?]).
  apply triple_ret. intros s Hs. exact Hs.
Qed.

(** When auto-analyze returns, the dashboard behind the URL of its reply
    shows one tile per listed visualization, in the order of the list, and
    the analysed dataset's entry points to that dashboard. *)
Theorem dashboard_matches_the_reply
    (st st' : state) (file_id : string) (reply : auto_reply) :
  auto_analyze_data w file_id st = (Return reply, st') ->
  (exists doc,
      fs st' !! without_leading_slash (au_dashboard_url reply)
      = Some (Dashboard doc)
      /\ List.filter is_tile doc = map (tile w) (au_visualizations reply))
  /\ exists e,
       data_store st' !! file_id = Some e
       /\ e_dashboard e = Some (au_dashboard_url reply).
Proof.
  intros Hret.
  assert (triple (fun _ => True) (auto_analyze_data w file_id)
            (fun reply s =>
               has_tiles (without_leading_slash (au_dashboard_url reply))
                         (map (tile w) (au_visualizations reply)) s
               /\ exists e,
                    data_store s !! file_id = Some e
                    /\ e_dashboard e = Some (au_dashboard_url reply))
            (fun _ => True)) as Htriple.
  { unfold auto_analyze_data.
    eapply triple_bind; [apply triple_any|]. intros store.
    destruct (store !! file_id) as [data|];
      [|apply triple_raise; auto].
    apply triple_try with (R := fun _ => True); [|auto|].
    - eapply triple_bind; [apply triple_any|]. intros ai.
      apply build_dashboard_document.
    - intros e s _.
      destruct (@analysis_failed_raises auto_reply e s) as [e' ->].
      exact I. }
  exact (triple_returns _ _ _ _ _ _ _ Htriple I Hret).
Qed.

End DashboardMore.

Lemma dashboard_matches_the_reply_witness :
  exists reply st',
    auto_analyze_data ok_world "d1" (state_with sales_df)
    = (Return reply, st')
    /\ (exists doc,
          fs st' !! without_leading_slash (au_dashboard_url reply)
          = Some (Dashboard doc)
          /\ List.filter is_tile doc
             = map (tile ok_world) (au_visualizations reply))
    /\ exists e,
         data_store st' !! "d1" = Some e
         /\ e_dashboard e = Some (au_dashboard_url reply).
Proof.
  destruct (auto_analyze_data ok_world "d1" (state_with sales_df))
    as [[reply|e|] st'] eqn:H.
  - exists reply, st'. split; [reflexivity|].
    exact (dashboard_matches_the_reply ok_world _ _ _ _ H).
  - vm_compute in H. discriminate H.
  - vm_compute in H. discriminate H.
Defined.

(** ** From a chart to the report *)

Section ChartReport.

Variable w : World.

(** A chart just created by visualize, handed to generate-report by the
    URL visualize returned, is embedded in the PDF as "Visualization 1"
    after the analysis text, provided the PDF library can embed it and the
    report can be written. *)
Theorem chart_is_embedded_in_the_report
    (st : state) (file_id viz_type x_column analysis_text : string)
    (y_column color_by : option string) (data : entry) (kind : chart) :
  data_store st !! file_id = Some data ->
  Py.elem x_column (columns (e_df data)) = true ->
  column_missing y_column (e_df data) = false ->
  column_missing color_by (e_df data) = false ->
  chart_of viz_type = Some kind ->
  (kind = Line \/ kind = Scatter -> opt_truthy y_column = true) ->
  (forall y, plot_error w (ImgChart kind x_column y color_by) = None) ->
  embed_error w (output_path (uuid w (uuid_ctr st)) "png") = None ->
  write_error w (output_path (uuid w (S (uuid_ctr st))) "pdf") = None ->
  exists url st1 st2,
    create_visualization w file_id viz_type x_column y_column color_by st
    = (Return url, st1)
    /\ generate_report w file_id analysis_text [url] st1
       = (Return (output_url (uuid w (S (uuid_ctr st))) "pdf"), st2)
    /\ fs st2 !! output_path (uuid w (S (uuid_ctr st))) "pdf"
       = Some (Report
                 (report_text (e_filename data) analysis_text
                  ++ [PdfHeading "Visualizations:";
                      PdfCaption ("Visualization " +:+ pretty 1%nat);
                      PdfImage (output_path (uuid w (uuid_ctr st)) "png")])).
Proof.
  intros Hdata Hx Hy Hc Hkind Hline Hplot Hembed Hwrite.
  pose proof (build_figure_supported viz_type x_column y_column color_by
                kind Hkind Hline) as Hfig.
  unfold create_visualization, bind at 1, get_store.
  rewrite Hdata. cbn [e_df]. rewrite Hx, Hy, Hc. cbn [negb].
  unfold try_except at 1, bind at 1 2 3 4, uuid4 at 1, lift.
  rewrite Hfig, Hplot. cbn [guard_error ret write_file].
  eexists _, _, _. split; [reflexivity|].
  unfold generate_report, bind at 1, get_store. cbn [data_store].
  rewrite Hdata. unfold try_except.
  erewrite bind_return.
  2:{ erewrite add_visualizations_embeds;
        [reflexivity | cbn [fs]; apply lookup_insert_eq | exact Hembed]. }
  unfold bind, uuid4. cbn [uuid_ctr]. rewrite Hwrite.
  cbn [guard_error ret write_file]. split; [reflexivity|].
  cbn [fs]. rewrite lookup_insert_eq. now rewrite <- app_assoc.
Qed.

End ChartReport.

Lemma chart_is_embedded_in_the_report_witness :
  exists url st1 st2,
    create_visualization ok_world "d1" "histogram" "units" None None
                         (state_with sales_df)
    = (Return url, st1)
    /\ generate_report ok_world "d1" "Units are skewed." [url] st1
       = (Return (output_url (uuid ok_world 1) "pdf"), st2)
    /\ fs st2 !! output_path (uuid ok_world 1) "pdf"
       = Some (Report
                 (report_text "d1.csv" "Units are skewed."
                  ++ [PdfHeading "Visualizations:";
                      PdfCaption ("Visualization " +:+ pretty 1%nat);
                      PdfImage (output_path (uuid ok_world 0) "png")])).
Proof.
  apply (chart_is_embedded_in_the_report ok_world (state_with sales_df)
           "d1" "histogram" "units" "Units are skewed." None None
           (entry_of "d1.csv" sales_df) Histogram);
    try reflexivity.
  intros [H|H]; discriminate H.
Defined.

(** ** Text shown on the dashboard *)

Section FormatContent.

Variable w : World.

Lemma replace_drops (c : ascii) (by_ s : string) :
  ~ In c (list_ascii_of_string by_) ->
  ~ In c (list_ascii_of_string (Py.replace c by_ s)).
Proof.
  intros Hby. induction s as [|d s IH]; cbn [Py.replace]; [auto|].
  destruct (Ascii.eqb_spec d c) as [->|Hne].
  - rewrite chars_app. intros H. apply in_app_or in H. tauto.
  - cbn [list_ascii_of_string In]. tauto.
Qed.

Lemma replace_keeps_out (d c : ascii) (by_ s : string) :
  ~ In d (list_ascii_of_string by_) ->
  ~ In d (list_ascii_of_string s) ->
  ~ In d (list_ascii_of_string (Py.replace c by_ s)).
Proof.
  intros Hby. induction s as [|x s IH]; cbn [Py.replace]; [auto|].
  cbn [list_ascii_of_string In]. intros Hs.
  destruct (Ascii.eqb x c).
  - rewrite chars_app. intros H. apply in_app_or in H. tauto.
  - cbn [list_ascii_of_string In]. tauto.
Qed.

(** Whatever the model sent for a card, the text put on the dashboard
    has no line break left in it, and a structured value (object or list)
    has no plain space left either: both are replaced by markup. *)
Theorem formatted_content_has_no_line_break (content : json) :
  ~ In Py.newline (list_ascii_of_string (format_content w content))
  /\ match content with
     | JObj _ | JArr _ =>
         ~ In " "%char (list_ascii_of_string (format_content w content))
     | _ => True
     end.
Proof.
  assert (~ In Py.newline (list_ascii_of_string "<br>")) as Hbr
    by (vm_compute; intuition discriminate).
  assert (~ In Py.newline (list_ascii_of_string "&nbsp;")) as Hnb
    by (vm_compute; intuition discriminate).
  assert (~ In " "%char (list_ascii_of_string "&nbsp;")) as Hsp
    by (vm_compute; intuition discriminate).
  destruct content; cbn [format_content]; unfold br;
    (split; [|try exact I]);
    first [ now apply replace_drops
          | apply replace_keeps_out; [exact Hnb | now apply replace_drops] ].
Qed.

End FormatContent.
